(** * SimpleFinanceTracker: the [FinanceTracker] class of [finance_tracker.py]

    A shallow embedding of the loader ([load_data]), the normaliser
    ([_process_data]), the aggregator ([get_monthly_summary],
    [get_category_summary], [get_basic_stats]) and the reporter
    ([export_report_with_charts]), followed by the properties of the
    specification.

    Conventions of the embedding.
    - A pandas [DataFrame] is a list of rows in file order; a row is a record
      with one field per column.  A cell that pandas holds as [NaN] / [NaT]
      is [None].
    - A [float64] amount is an exact rational ([Q]); equality of amounts is
      [Qeq] ([==]).  Rounding, infinities and [NaN] produced by arithmetic are
      outside the embedding.
    - A method of the class is a computation in the monad [M]: it reads and
      writes the tracker object and either returns a value or raises.
    - The pandas operations follow their documented defaults: [groupby]
      leaves out the rows whose key is null and orders the groups by label,
      ['count'] counts the cells that are not null, [sum] of no entries is 0,
      [idxmax] returns the first label of the maximum and raises on an empty
      series.
    - Reading a file, parsing one text cell as a date or as a number, and
      writing the workbook are collaborators: parameters of the program. *)

From Stdlib Require Import List String Ascii Bool Arith ZArith QArith Qabs Lia.
From Stdlib Require Import Sorting.Sorted Sorting.Permutation Sorting.Mergesort.
From Stdlib Require Import Orders.
Import ListNotations.

Local Open Scope string_scope.

(** ** Timestamps and [strftime('%Y-%m')] *)

(** The calendar part of a pandas [Timestamp]; the time of day plays no role
    in the program. *)
Record Timestamp := mkTimestamp { year : nat; month : nat; day : nat }.


Definition digit (n : nat) : ascii := ascii_of_nat (48 + n mod 10).

(** The last [w] decimal digits of [n], most significant first; this is the
    zero-padded decimal numeral of [n] whenever [n < 10 ^ w]. *)
Fixpoint zero_padded (w n : nat) : string :=
  match w with
  | O => EmptyString
  | S w' => zero_padded w' (n / 10) ++ String (digit n) EmptyString
  end.

(** [%Y]: year with century, four digits.  [%m]: month, two digits. *)
Definition fmt_Y (d : Timestamp) : string := zero_padded 4 (year d).
Definition fmt_m (d : Timestamp) : string := zero_padded 2 (month d).

(** [Timestamp.strftime('%Y-%m')] *)
Definition strftime_Y_m (d : Timestamp) : string := fmt_Y d ++ "-" ++ fmt_m d.

(** Reading a numeral back, used to show that the key determines the month. *)
Definition digit_value (c : ascii) : nat := nat_of_ascii c - 48.

Fixpoint read_decimal (acc : nat) (s : string) : nat :=
  match s with
  | EmptyString => acc
  | String c s' => read_decimal (10 * acc + digit_value c) s'
  end.

(** ** Cells, rows and tables *)

(** A cell of a date column as a reader leaves it: empty, text still to be
    parsed, or already a timestamp (spreadsheets). *)
Inductive dcell := DNull | DText (s : string) | DStamp (d : Timestamp).

(** A cell of the ['Dare'] / ['Avere'] columns as a reader leaves it. *)
Inductive ncell := NNull | NNum (q : Q) | NText (s : string).

(** One row of the table returned by [pd.read_csv] / [pd.read_excel]. *)
Record RawRow := mkRawRow {
  raw_Data_contabile : dcell;
  raw_Valuta : dcell;
  raw_Dare : ncell;
  raw_Avere : ncell;
  raw_Divisa : option string;
  raw_Causale : option string;
  raw_Descrizione : option string;
  raw_Categoria : option string;
  raw_Tag : option string
}.

(** The table as read.  ['Divisa'] and ['Causale'] are optional columns; the
    cells of an absent column are [None]. *)
Record RawFrame := mkRawFrame {
  raw_has_Divisa : bool;
  raw_has_Causale : bool;
  raw_rows : list RawRow
}.

(** One row of [self.data] after [_process_data]. *)
Record Row := mkRow {
  Data_contabile : option Timestamp;
  Valuta : dcell;
  Dare : option Q;
  Avere : option Q;
  Divisa : option string;
  Causale : option string;
  Descrizione : option string;
  Categoria : option string;
  Tag : option string;
  Amount : Q;
  Month : option nat;
  Year : option nat;
  MonthYear : option string
}.

Record DataFrame := mkDataFrame {
  has_Divisa : bool;
  has_Causale : bool;
  rows : list Row
}.

(** What [self.data] can hold once it is not [None]: the table as read, when
    a load stopped between the assignment of line 15 / 22 and the end of
    [_process_data], or the processed ledger. *)
Inductive Frame := Unprocessed (t : RawFrame) | Ledger (df : DataFrame).

Record FinanceTracker := mkTracker { data : option Frame }.

(** [FinanceTracker.__init__] *)
Definition __init__ : FinanceTracker := {| data := None |}.

(** ** Exceptions and the method monad *)

Inductive exn :=
| ValueError (msg : string)
| KeyError (key : string)
| AttributeError (msg : string)
| TypeError (msg : string)
| OSError (msg : string).

(** A method receives the tracker, may replace [self.data], and returns a
    value or raises; the tracker left behind is kept in both cases. *)
Definition M (A : Type) : Type := FinanceTracker -> (exn + A) * FinanceTracker.

Definition ret {A} (a : A) : M A := fun self => (inr a, self).
Definition raise {A} (e : exn) : M A := fun self => (inl e, self).
Definition bind {A B} (m : M A) (k : A -> M B) : M B :=
  fun self =>
    match m self with
    | (inl e, self') => (inl e, self')
    | (inr a, self') => k a self'
    end.
Definition call {A} (r : exn + A) : M A := fun self => (r, self).
Definition get_data : M (option Frame) := fun self => (inr (data self), self).
Definition set_data (d : Frame) : M unit :=
  fun _ => (inr tt, {| data := Some d |}).

Declare Scope method_scope.
Delimit Scope method_scope with method.
Notation "x <- m ;; k" := (bind m (fun x => k))
  (at level 61, m at next level, right associativity) : method_scope.
Notation "m ;; k" := (bind m (fun _ => k))
  (at level 61, right associativity) : method_scope.

Definition result {A} (m : M A) (self : FinanceTracker) : exn + A := fst (m self).
Definition after {A} (m : M A) (self : FinanceTracker) : FinanceTracker := snd (m self).

(** ** pandas primitives used by the program *)

(** [Series.fillna(0)] on one cell. *)
Definition fillna0 (c : option Q) : Q :=
  match c with Some q => q | None => 0 end.

(** [Series.sum()]: the entries are added in order, starting from 0. *)
Definition series_sum (l : list Q) : Q := fold_left Qplus l 0.

(** [Series.mean()] of a non-empty series. *)
Definition series_mean (l : list Q) : Q :=
  series_sum l / inject_Z (Z.of_nat (List.length l)).

Definition is_notnull {A} (c : option A) : bool :=
  match c with Some _ => true | None => false end.

(** [Series.count()]: the number of cells that are not null. *)
Definition series_count {A} (l : list (option A)) : nat :=
  List.length (filter is_notnull l).

Definition Qlt_bool (x y : Q) : bool := negb (Qle_bool y x).

(** [str.endswith] *)
Definition endswith (s suffix : string) : bool :=
  (String.length suffix <=? String.length s)%nat
  && (substring (String.length s - String.length suffix)
                (String.length suffix) s =? suffix).

(** ** [groupby(...).agg(...)], sorting and [idxmax] *)

(** One line of a summary table: the index label and the two columns
    ['Amount'] and ['Transactions']. *)
Record Entry := mkEntry {
  label : string;
  total : Q;
  Transactions : nat
}.

(** Ascending order of Python [str] values (code point order). *)
Definition str_lt (a b : string) : Prop := String.compare a b = Lt.

Fixpoint insert_key (k : string) (ks : list string) : list string :=
  match ks with
  | [] => [k]
  | k' :: ks' =>
      match String.compare k k' with
      | Lt => k :: ks
      | Eq => ks
      | Gt => k' :: insert_key k ks'
      end
  end.

(** The group labels of [groupby(col)]: the distinct non-null keys, in
    ascending order ([sort=True], [dropna=True], the defaults). *)
Definition group_keys (col : Row -> option string) (l : list Row) : list string :=
  fold_right
    (fun r ks => match col r with Some k => insert_key k ks | None => ks end)
    [] l.

Definition has_key (col : Row -> option string) (k : string) (r : Row) : bool :=
  match col r with Some k' => (k' =? k) | None => false end.

(** The rows of one group, in table order. *)
Definition group (col : Row -> option string) (k : string) (l : list Row) : list Row :=
  filter (has_key col k) l.

(** [groupby(col).agg({'Amount': 'sum', 'Data contabile': 'count'})
      .rename(columns={'Data contabile': 'Transactions'})] *)
Definition groupby_agg (col : Row -> option string) (l : list Row) : list Entry :=
  map (fun k =>
         {| label := k;
            total := series_sum (map Amount (group col k l));
            Transactions := series_count (map Data_contabile (group col k l)) |})
      (group_keys col l).

(** [groupby(col)['Amount'].sum()]: a series indexed by the group labels. *)
Definition groupby_sum (col : Row -> option string) (l : list Row) : list (string * Q) :=
  map (fun k => (k, series_sum (map Amount (group col k l)))) (group_keys col l).

(** [Series.abs()] *)
Definition series_abs (s : list (string * Q)) : list (string * Q) :=
  map (fun kv => (fst kv, Qabs (snd kv))) s.

(** Sorting by a total boolean order, keeping the order of equal elements. *)
Fixpoint insert_sorted {A} (leb : A -> A -> bool) (x : A) (l : list A) : list A :=
  match l with
  | [] => [x]
  | y :: l' => if leb x y then x :: l else y :: insert_sorted leb x l'
  end.

Fixpoint sort_by {A} (leb : A -> A -> bool) (l : list A) : list A :=
  match l with
  | [] => []
  | x :: l' => insert_sorted leb x (sort_by leb l')
  end.

(** [DataFrame.sort_index()] of a summary table. *)
Definition sort_index (s : list Entry) : list Entry :=
  sort_by (fun a b => String.leb (label a) (label b)) s.

(** [DataFrame.sort_values('Amount')] of a summary table. *)
Definition sort_values_Amount (s : list Entry) : list Entry :=
  sort_by (fun a b => Qle_bool (total a) (total b)) s.

(** [Series.idxmax()]: the label of the first occurrence of the maximum;
    [None] stands for the [ValueError] raised on an empty series. *)
Fixpoint idxmax_from (best : string * Q) (s : list (string * Q)) : string :=
  match s with
  | [] => fst best
  | kv :: s' =>
      if Qlt_bool (snd best) (snd kv) then idxmax_from kv s'
      else idxmax_from best s'
  end.

Definition idxmax (s : list (string * Q)) : option string :=
  match s with
  | [] => None
  | kv :: s' => Some (idxmax_from kv s')
  end.

Definition idxmax_or_raise (s : list (string * Q)) : exn + string :=
  match idxmax s with
  | Some k => inr k
  | None => inl (ValueError "attempt to get argmax of an empty sequence")
  end.

(** ** The aggregator on a processed ledger *)

Definition NO_DATA : string := "No data loaded. Please load data first.".

(** [self.data.groupby('MonthYear').agg(...).rename(...)] then [sort_index()] *)
Definition monthly_summary (df : DataFrame) : list Entry :=
  sort_index (groupby_agg MonthYear (rows df)).

(** [self.data.groupby('Categoria').agg(...).rename(...).sort_values('Amount')] *)
Definition category_summary (df : DataFrame) : list Entry :=
  sort_values_Amount (groupby_agg Categoria (rows df)).

(** [self.data[self.data['Amount'] > 0]] and [self.data[self.data['Amount'] < 0]] *)
Definition positive_rows (df : DataFrame) : list Row :=
  filter (fun r => Qlt_bool 0 (Amount r)) (rows df).
Definition negative_rows (df : DataFrame) : list Row :=
  filter (fun r => Qlt_bool (Amount r) 0) (rows df).

Definition is_empty {A} (l : list A) : bool :=
  match l with [] => true | _ => false end.

Record Stats := mkStats {
  Total_Income : Q;
  Total_Expenses : Q;
  Balance : Q;
  Average_Expense : Q;
  Average_Income : Q;
  Top_Expense_Category : string;
  Top_Income_Category : string;
  Total_Transactions : nat
}.

Definition total_income (df : DataFrame) : Q :=
  series_sum (map Amount (positive_rows df)).
Definition total_expense (df : DataFrame) : Q :=
  series_sum (map Amount (negative_rows df)).

Definition avg_expense (df : DataFrame) : Q :=
  if (0 <? List.length (negative_rows df))%nat
  then series_mean (map Amount (negative_rows df)) else 0.
Definition avg_income (df : DataFrame) : Q :=
  if (0 <? List.length (positive_rows df))%nat
  then series_mean (map Amount (positive_rows df)) else 0.

Definition top_expense_cat (df : DataFrame) : exn + string :=
  if negb (is_empty (negative_rows df))
  then idxmax_or_raise (series_abs (groupby_sum Categoria (negative_rows df)))
  else inr "N/A".
Definition top_income_cat (df : DataFrame) : exn + string :=
  if negb (is_empty (positive_rows df))
  then idxmax_or_raise (groupby_sum Categoria (positive_rows df))
  else inr "N/A".

(** The body of [get_basic_stats] below the guard, lines 210-231. *)
Definition basic_stats (df : DataFrame) : exn + Stats :=
  let income := total_income df in
  let expense := total_expense df in
  let balance := income + expense in
  match top_expense_cat df with
  | inl e => inl e
  | inr top_expense =>
      match top_income_cat df with
      | inl e => inl e
      | inr top_income =>
          inr {| Total_Income := income;
                 Total_Expenses := expense;
                 Balance := balance;
                 Average_Expense := avg_expense df;
                 Average_Income := avg_income df;
                 Top_Expense_Category := top_expense;
                 Top_Income_Category := top_income;
                 Total_Transactions := List.length (rows df) |}
      end
  end.

(** A summary method returns either the message or a table. *)
Inductive Summary := Message (s : string) | Table (entries : list Entry).
Inductive StatsResult := StatsMessage (s : string) | StatsDict (d : Stats).

Local Open Scope method_scope.

Definition get_monthly_summary : M Summary :=
  d <- get_data ;;
  match d with
  | None => ret (Message NO_DATA)
  | Some (Unprocessed _) => raise (KeyError "MonthYear")
  | Some (Ledger df) => ret (Table (monthly_summary df))
  end.

Definition get_category_summary : M Summary :=
  d <- get_data ;;
  match d with
  | None => ret (Message NO_DATA)
  | Some (Unprocessed _) => raise (KeyError "Amount")
  | Some (Ledger df) => ret (Table (category_summary df))
  end.

Definition get_basic_stats : M StatsResult :=
  d <- get_data ;;
  match d with
  | None => ret (StatsMessage NO_DATA)
  | Some (Unprocessed _) => raise (KeyError "Amount")
  | Some (Ledger df) => s <- call (basic_stats df) ;; ret (StatsDict s)
  end.

(** ** The loader, the normaliser and the reporter *)

(** What the workbook writer and the chart renderer receive. *)
Record Report := mkReport {
  sheet_Transactions : DataFrame;
  sheet_Monthly_Summary : list Entry;
  sheet_Category_Summary : list Entry;
  sheet_Summary : list (string * Q)
}.

Fixpoint map_or_raise {A B} (f : A -> exn + B) (l : list A) : exn + list B :=
  match l with
  | [] => inr []
  | x :: l' =>
      match f x with
      | inl e => inl e
      | inr y =>
          match map_or_raise f l' with
          | inl e => inl e
          | inr ys => inr (y :: ys)
          end
      end
  end.

Definition with_Data_contabile (r : RawRow) (c : dcell) : RawRow :=
  {| raw_Data_contabile := c; raw_Valuta := raw_Valuta r;
     raw_Dare := raw_Dare r; raw_Avere := raw_Avere r;
     raw_Divisa := raw_Divisa r; raw_Causale := raw_Causale r;
     raw_Descrizione := raw_Descrizione r; raw_Categoria := raw_Categoria r;
     raw_Tag := raw_Tag r |}.

Definition with_Valuta (r : RawRow) (c : dcell) : RawRow :=
  {| raw_Data_contabile := raw_Data_contabile r; raw_Valuta := c;
     raw_Dare := raw_Dare r; raw_Avere := raw_Avere r;
     raw_Divisa := raw_Divisa r; raw_Causale := raw_Causale r;
     raw_Descrizione := raw_Descrizione r; raw_Categoria := raw_Categoria r;
     raw_Tag := raw_Tag r |}.

Definition with_rows (t : RawFrame) (l : list RawRow) : RawFrame :=
  {| raw_has_Divisa := raw_has_Divisa t;
     raw_has_Causale := raw_has_Causale t;
     raw_rows := l |}.

Definition is_stamp (c : dcell) : bool :=
  match c with DStamp _ => true | _ => false end.
Definition is_datetimelike (c : dcell) : bool :=
  match c with DText _ => false | _ => true end.

(** [pd.api.types.is_datetime64_any_dtype]: a column read from a spreadsheet
    is datetime-typed when it holds timestamps and empty cells only, and at
    least one timestamp. *)
Definition is_datetime64_any_dtype (column : list dcell) : bool :=
  forallb is_datetimelike column && existsb is_stamp column.

(** The [.dt] accessor on one cell of a datetime-typed column. *)
Definition dt (c : dcell) : exn + option Timestamp :=
  match c with
  | DNull => inr None
  | DStamp d => inr (Some d)
  | DText _ => inl (AttributeError "Can only use .dt accessor with datetimelike values")
  end.

Section Collaborators.

(** [pd.read_csv(path, decimal=',')] and [pd.read_excel(path)]. *)
Variable read_csv : string -> exn + RawFrame.
Variable read_excel : string -> exn + RawFrame.
(** [pd.to_datetime] of one text cell under [format='%d/%m/%Y']; [None]
    when the text does not match the format. *)
Variable strptime : string -> option Timestamp.
(** [pd.to_numeric] of one text cell; [None] when it is not a number. *)
Variable to_numeric_text : string -> option Q.
(** Opening the workbook and writing the ['Transactions'] sheet, lines
    136-141; [Some e] when that raises [e]. *)
Variable open_workbook : string -> option exn.
(** The remaining sheets, the charts and the closing of the workbook, lines
    145-201; [Some e] when one of them raises [e]. *)
Variable write_report : string -> Report -> option exn.

(** [pd.to_datetime(column, format='%d/%m/%Y')] on one cell. *)
Definition to_datetime (c : dcell) : exn + dcell :=
  match c with
  | DNull => inr DNull
  | DStamp d => inr (DStamp d)
  | DText s =>
      match strptime s with
      | Some d => inr (DStamp d)
      | None => inl (ValueError "time data does not match format '%d/%m/%Y'")
      end
  end.

(** [self.data['Data contabile'] = pd.to_datetime(self.data['Data contabile'], ...)] *)
Definition convert_Data_contabile (t : RawFrame) : exn + RawFrame :=
  match map_or_raise
          (fun r => match to_datetime (raw_Data_contabile r) with
                    | inl e => inl e
                    | inr c => inr (with_Data_contabile r c)
                    end) (raw_rows t) with
  | inl e => inl e
  | inr l => inr (with_rows t l)
  end.

(** [self.data['Valuta'] = pd.to_datetime(self.data['Valuta'], ...)] *)
Definition convert_Valuta (t : RawFrame) : exn + RawFrame :=
  match map_or_raise
          (fun r => match to_datetime (raw_Valuta r) with
                    | inl e => inl e
                    | inr c => inr (with_Valuta r c)
                    end) (raw_rows t) with
  | inl e => inl e
  | inr l => inr (with_rows t l)
  end.

(** Lines 18-19 and 25-26: each assignment replaces a column of
    [self.data]; when the second conversion raises, the first stays. *)
Definition convert_dates (t : RawFrame) : M unit :=
  t1 <- call (convert_Data_contabile t) ;;
  set_data (Unprocessed t1) ;;
  t2 <- call (convert_Valuta t1) ;;
  set_data (Unprocessed t2).

(** [pd.to_numeric(column, errors='coerce')] on one cell. *)
Definition to_numeric (c : ncell) : option Q :=
  match c with
  | NNull => None
  | NNum q => Some q
  | NText s => to_numeric_text s
  end.

(** Lines 38-47 on one row. *)
Definition process_row (r : RawRow) : exn + Row :=
  let dare := to_numeric (raw_Dare r) in
  let avere := to_numeric (raw_Avere r) in
  let amount := fillna0 avere + fillna0 dare in
  match dt (raw_Data_contabile r) with
  | inl e => inl e
  | inr d =>
      inr {| Data_contabile := d;
             Valuta := raw_Valuta r;
             Dare := dare;
             Avere := avere;
             Divisa := raw_Divisa r;
             Causale := raw_Causale r;
             Descrizione := raw_Descrizione r;
             Categoria := raw_Categoria r;
             Tag := raw_Tag r;
             Amount := amount;
             Month := option_map month d;
             Year := option_map year d;
             MonthYear := option_map strftime_Y_m d |}
  end.

Definition without_Divisa_Causale (r : Row) : Row :=
  {| Data_contabile := Data_contabile r; Valuta := Valuta r;
     Dare := Dare r; Avere := Avere r;
     Divisa := None; Causale := None;
     Descrizione := Descrizione r; Categoria := Categoria r; Tag := Tag r;
     Amount := Amount r; Month := Month r; Year := Year r;
     MonthYear := MonthYear r |}.

(** Lines 50-51. *)
Definition drop_Divisa_Causale (df : DataFrame) : DataFrame :=
  if has_Divisa df && has_Causale df
  then {| has_Divisa := false; has_Causale := false;
          rows := map without_Divisa_Causale (rows df) |}
  else df.

(** [_process_data] on the table held by [self.data]. *)
Definition process (t : RawFrame) : exn + DataFrame :=
  match map_or_raise process_row (raw_rows t) with
  | inl e => inl e
  | inr l =>
      inr (drop_Divisa_Causale
             {| has_Divisa := raw_has_Divisa t;
                has_Causale := raw_has_Causale t;
                rows := l |})
  end.

(** Lines 38-47 on a row that went through them before: the numeric
    columns are numeric already and the derived columns are recomputed. *)
Definition reprocess_row (r : Row) : Row :=
  {| Data_contabile := Data_contabile r; Valuta := Valuta r;
     Dare := Dare r; Avere := Avere r;
     Divisa := Divisa r; Causale := Causale r;
     Descrizione := Descrizione r; Categoria := Categoria r; Tag := Tag r;
     Amount := fillna0 (Avere r) + fillna0 (Dare r);
     Month := option_map month (Data_contabile r);
     Year := option_map year (Data_contabile r);
     MonthYear := option_map strftime_Y_m (Data_contabile r) |}.

Definition reprocess (df : DataFrame) : DataFrame :=
  drop_Divisa_Causale
    {| has_Divisa := has_Divisa df; has_Causale := has_Causale df;
       rows := map reprocess_row (rows df) |}.

(** [_process_data] is called by [load_data] only, on the table it has
    just read.  The [.dt] accessor raises on a column that still holds
    text; [load_data] never calls it on such a column (lemmas
    [process_after_conversion] and [process_typed_column]). *)
Definition _process_data : M unit :=
  d <- get_data ;;
  match d with
  | None => raise (TypeError "'NoneType' object is not subscriptable")
  | Some (Unprocessed t) => df <- call (process t) ;; set_data (Ledger df)
  | Some (Ledger df) => set_data (Ledger (reprocess df))
  end.

Definition load_data (file_path : string) : M (option Frame) :=
  (if endswith file_path ".csv" then
     t <- call (read_csv file_path) ;;
     set_data (Unprocessed t) ;;
     convert_dates t
   else if endswith file_path ".xlsx" || endswith file_path ".xls" then
     t <- call (read_excel file_path) ;;
     set_data (Unprocessed t) ;;
     if negb (is_datetime64_any_dtype (map raw_Data_contabile (raw_rows t)))
     then convert_dates t
     else ret tt
   else raise (ValueError "Unsupported file format. Please use CSV or Excel.")) ;;
  _process_data ;;
  get_data.

Definition or_raise (r : option exn) : M unit :=
  match r with Some e => raise e | None => ret tt end.

Definition export_report_with_charts (output_path : string) : M string :=
  d <- get_data ;;
  match d with
  | None => ret NO_DATA
  | Some _ =>
      or_raise (open_workbook output_path) ;;
      monthly <- get_monthly_summary ;;
      cat_summary <- get_category_summary ;;
      d' <- get_data ;;
      match d', monthly, cat_summary with
      | Some (Ledger df), Table monthly, Table cat_summary =>
          let income := total_income df in
          let expense := total_expense df in
          let balance := income + expense in
          or_raise
            (write_report output_path
               {| sheet_Transactions := df;
                  sheet_Monthly_Summary := monthly;
                  sheet_Category_Summary := cat_summary;
                  sheet_Summary := [("Total Income", income);
                                    ("Total Expenses", expense);
                                    ("Balance", balance)] |}) ;;
          ret ("Report with charts exported to " ++ output_path)
      | _, _, _ =>
          (* not reached: a summary is the message only when [d] is [None] *)
          raise (AttributeError "'str' object has no attribute 'to_excel'")
      end
  end.

End Collaborators.

(** ** Notions used in the statements *)

(** What [_process_data] makes of one source row. *)
Definition normalised (to_numeric_text : string -> option Q)
    (raw : RawRow) (r : Row) : Prop :=
  Dare r = to_numeric to_numeric_text (raw_Dare raw)
  /\ Avere r = to_numeric to_numeric_text (raw_Avere raw)
  /\ Amount r = fillna0 (Avere r) + fillna0 (Dare r)
  /\ dt (raw_Data_contabile raw) = inr (Data_contabile r)
  /\ Month r = option_map month (Data_contabile r)
  /\ Year r = option_map year (Data_contabile r)
  /\ MonthYear r = option_map strftime_Y_m (Data_contabile r)
  /\ Categoria r = raw_Categoria raw
  /\ Descrizione r = raw_Descrizione raw
  /\ Tag r = raw_Tag raw.

(** The invariant of a processed ledger that the summaries rely on. *)
Definition derived_columns (r : Row) : Prop :=
  Amount r = fillna0 (Avere r) + fillna0 (Dare r)
  /\ Month r = option_map month (Data_contabile r)
  /\ Year r = option_map year (Data_contabile r)
  /\ MonthYear r = option_map strftime_Y_m (Data_contabile r).

(** Two source rows that differ by date conversion only. *)
Definition dates_converted (strptime : string -> option Timestamp)
    (a b : RawRow) : Prop :=
  (raw_Data_contabile b = raw_Data_contabile a
   \/ to_datetime strptime (raw_Data_contabile a) = inr (raw_Data_contabile b))
  /\ raw_Dare b = raw_Dare a
  /\ raw_Avere b = raw_Avere a
  /\ raw_Categoria b = raw_Categoria a
  /\ raw_Descrizione b = raw_Descrizione a
  /\ raw_Tag b = raw_Tag a.

(** The table from which a successful load built the ledger. *)
Definition loaded_from (read_csv read_excel : string -> exn + RawFrame)
    (file_path : string) (t : RawFrame) : Prop :=
  (endswith file_path ".csv" = true /\ read_csv file_path = inr t)
  \/ (endswith file_path ".csv" = false
      /\ endswith file_path ".xlsx" || endswith file_path ".xls" = true
      /\ read_excel file_path = inr t).

(** The ledger a tracker holds; the empty one when it holds none. *)
Definition ledger_of (self : FinanceTracker) : DataFrame :=
  match data self with
  | Some (Ledger df) => df
  | _ => {| has_Divisa := false; has_Causale := false; rows := [] |}
  end.

(** The value a source cell contributes to the amount: its number, or zero
    when the cell is empty or does not read as a number. *)
Definition value_or_zero (to_numeric_text : string -> option Q) (c : ncell) : Q :=
  match c with
  | NNum q => q
  | NNull => 0
  | NText s => match to_numeric_text s with Some q => q | None => 0 end
  end.

(** The cell is empty or does not read as a number. *)
Definition unparsed (to_numeric_text : string -> option Q) (c : ncell) : Prop :=
  match c with
  | NNum _ => False
  | NNull => True
  | NText s => to_numeric_text s = None
  end.

(** A digit character, and a text of digits only. *)
Definition is_digit (c : ascii) : bool :=
  (48 <=? nat_of_ascii c)%nat && (nat_of_ascii c <=? 57)%nat.

Fixpoint all_digits (s : string) : bool :=
  match s with
  | EmptyString => true
  | String c s' => is_digit c && all_digits s'
  end.




(** The negative and the positive amounts of the ledger, in row order. *)
Definition negative_amounts (df : DataFrame) : list Q :=
  filter (fun a => Qlt_bool a 0) (map Amount (rows df)).
Definition positive_amounts (df : DataFrame) : list Q :=
  filter (fun a => Qlt_bool 0 a) (map Amount (rows df)).

(** [c] labels a transaction with a negative (positive) amount. *)
Definition expense_category (df : DataFrame) (c : string) : Prop :=
  exists r, In r (rows df) /\ Amount r < 0 /\ Categoria r = Some c.
Definition income_category (df : DataFrame) (c : string) : Prop :=
  exists r, In r (rows df) /\ 0 < Amount r /\ Categoria r = Some c.

(** The sum of the negative (positive) amounts labelled [c]. *)
Definition expense_total (df : DataFrame) (c : string) : Q :=
  series_sum (map Amount
    (filter (fun r => Qlt_bool (Amount r) 0 && has_key Categoria c r) (rows df))).
Definition income_total (df : DataFrame) (c : string) : Q :=
  series_sum (map Amount
    (filter (fun r => Qlt_bool 0 (Amount r) && has_key Categoria c r) (rows df))).

(** The rows are none, or at least one of them carries a category. *)
Definition some_labelled (l : list Row) : bool :=
  is_empty l || existsb (fun r => is_notnull (Categoria r)) l.

(** The three queries of the aggregator, and the tracker left by a sequence
    of them (whatever they return or raise). *)
Inductive query := MonthlySummary | CategorySummary | BasicStats.

Definition after_query (q : query) (self : FinanceTracker) : FinanceTracker :=
  match q with
  | MonthlySummary => after get_monthly_summary self
  | CategorySummary => after get_category_summary self
  | BasicStats => after get_basic_stats self
  end.

Definition after_queries (qs : list query) (self : FinanceTracker) : FinanceTracker :=
  fold_left (fun s q => after_query q s) qs self.

(** ** Statements used to run the program *)

(** A reader of zero-padded [dd/mm/yyyy] texts, the shape of every date of
    the sample; on these texts it agrees with [format='%d/%m/%Y']. *)
Definition strptime_dmy (s : string) : option Timestamp :=
  let dd := substring 0 2 s in
  let mm := substring 3 2 s in
  let yyyy := substring 6 4 s in
  if (String.length s =? 10)%nat
     && (substring 2 1 s =? "/") && (substring 5 1 s =? "/")
     && all_digits dd && all_digits mm && all_digits yyyy
     && (1 <=? read_decimal 0 dd)%nat && (read_decimal 0 dd <=? 31)%nat
     && (1 <=? read_decimal 0 mm)%nat && (read_decimal 0 mm <=? 12)%nat
  then Some {| year := read_decimal 0 yyyy;
               month := read_decimal 0 mm;
               day := read_decimal 0 dd |}
  else None.

(** Collaborators that write the workbook and never fail. *)
Definition open_nothing (output_path : string) : option exn := None.
Definition write_nothing (output_path : string) (r : Report) : option exn := None.

(** The table [pd.read_csv("sample_data.csv", decimal=',')] returns for the
    text of lines 239-242: the quoted debits are read as numbers, the empty
    credits and tags as missing values. *)
Definition sample_data : RawFrame :=
  {| raw_has_Divisa := true;
     raw_has_Causale := true;
     raw_rows :=
       [ {| raw_Data_contabile := DText "12/03/2025";
            raw_Valuta := DText "10/03/2025";
            raw_Dare := NNum (-100.00); raw_Avere := NNull;
            raw_Divisa := Some "EUR"; raw_Causale := Some "VH";
            raw_Descrizione := Some "Pagamento POS";
            raw_Categoria := Some "Ristoranti e bar";
            raw_Tag := None |};
         {| raw_Data_contabile := DText "12/03/2025";
            raw_Valuta := DText "07/03/2025";
            raw_Dare := NNum (-30.00); raw_Avere := NNull;
            raw_Divisa := Some "EUR"; raw_Causale := Some "0U";
            raw_Descrizione := Some "PAGAMENTO VISA";
            raw_Categoria := Some "Arte e Cultura";
            raw_Tag := None |};
         {| raw_Data_contabile := DText "11/03/2025";
            raw_Valuta := DText "11/03/2025";
            raw_Dare := NNum (-11.50); raw_Avere := NNull;
            raw_Divisa := Some "EUR"; raw_Causale := Some "TE";
            raw_Descrizione := Some "ADDEBITO DIRETTO";
            raw_Categoria := Some "Utenze";
            raw_Tag := None |} ] |}.

(** A file system that holds the sample under every path. *)
Definition read_sample (file_path : string) : exn + RawFrame := inr sample_data.

(** The tracker after [tracker.load_data("sample_data.csv")], line 248. *)
Definition sample_tracker (to_numeric_text : string -> option Q) : FinanceTracker :=
  after (load_data read_sample read_sample strptime_dmy to_numeric_text "sample_data.csv")
        __init__.


(** A statement with the header line only. *)
Definition empty_statement : RawFrame :=
  {| raw_has_Divisa := true; raw_has_Causale := true; raw_rows := [] |}.

Definition read_empty (file_path : string) : exn + RawFrame := inr empty_statement.

(** A statement with a row that has no posting date, as the closing line of
    a bank export often is. *)
Definition undated_statement : RawFrame :=
  {| raw_has_Divisa := false;
     raw_has_Causale := false;
     raw_rows :=
       [ {| raw_Data_contabile := DText "12/03/2025";
            raw_Valuta := DText "10/03/2025";
            raw_Dare := NNum (-100.00); raw_Avere := NNull;
            raw_Divisa := None; raw_Causale := None;
            raw_Descrizione := Some "Pagamento POS";
            raw_Categoria := Some "Ristoranti e bar";
            raw_Tag := None |};
         {| raw_Data_contabile := DNull;
            raw_Valuta := DNull;
            raw_Dare := NNum (-30.00); raw_Avere := NNull;
            raw_Divisa := None; raw_Causale := None;
            raw_Descrizione := Some "Saldo";
            raw_Categoria := Some "Arte e Cultura";
            raw_Tag := None |} ] |}.

Definition read_undated (file_path : string) : exn + RawFrame := inr undated_statement.

(** The tracker after [load_data("movimenti.csv")] on that statement. *)
Definition undated_tracker : FinanceTracker :=
  after (load_data read_undated read_undated strptime_dmy (fun _ => None) "movimenti.csv")
        __init__.

(** A statement whose only movement has no category. *)
Definition unlabelled_statement : RawFrame :=
  {| raw_has_Divisa := false;
     raw_has_Causale := false;
     raw_rows :=
       [ {| raw_Data_contabile := DText "12/03/2025";
            raw_Valuta := DText "10/03/2025";
            raw_Dare := NNum (-100.00); raw_Avere := NNull;
            raw_Divisa := None; raw_Causale := None;
            raw_Descrizione := Some "Pagamento POS";
            raw_Categoria := None;
            raw_Tag := None |} ] |}.

Definition read_unlabelled (file_path : string) : exn + RawFrame :=
  inr unlabelled_statement.

(** The tracker after [load_data("movimenti.csv")] on that statement. *)
Definition unlabelled_tracker : FinanceTracker :=
  after (load_data read_unlabelled read_unlabelled strptime_dmy (fun _ => None)
                   "movimenti.csv")
        __init__.

(** A statement whose dates are written year first; [format='%d/%m/%Y']
    does not match them. *)
Definition iso_dated_statement : RawFrame :=
  {| raw_has_Divisa := false;
     raw_has_Causale := false;
     raw_rows :=
       [ {| raw_Data_contabile := DText "2025-03-12";
            raw_Valuta := DText "2025-03-10";
            raw_Dare := NNum (-100.00); raw_Avere := NNull;
            raw_Divisa := None; raw_Causale := None;
            raw_Descrizione := Some "Pagamento POS";
            raw_Categoria := Some "Ristoranti e bar";
            raw_Tag := None |} ] |}.

Definition read_iso_dated (file_path : string) : exn + RawFrame :=
  inr iso_dated_statement.

(** The tracker after [load_data("movimenti.csv")] raised on that statement. *)
Definition half_loaded_tracker : FinanceTracker :=
  after (load_data read_iso_dated read_iso_dated strptime_dmy (fun _ => None)
                   "movimenti.csv")
        __init__.

(** ** The charts, lines 75-128 *)

(** What a figure holds when a chart method returns it: the series handed
    to [ax.plot] or [ax.pie] with the title, or the text of the placeholder. *)
Inductive Figure :=
| LineChart (title : string) (xs : list string) (ys : list Q)
| PieChart (title : string) (values : list Q) (labels : list string)
| TextChart (title : string) (text : string).

(** [Series.sort_values(ascending=False)] *)
Definition sort_values_descending (s : list (string * Q)) : list (string * Q) :=
  sort_by (fun a b => Qle_bool (snd b) (snd a)) s.

(** [Series.head(n)] *)
Definition head {A} (n : nat) (l : list A) : list A := firstn n l.

(** Lines 103 and 116. *)
Definition expense_by_cat (df : DataFrame) : list (string * Q) :=
  sort_values_descending (series_abs (groupby_sum Categoria (negative_rows df))).
Definition income_by_cat (df : DataFrame) : list (string * Q) :=
  sort_values_descending (groupby_sum Categoria (positive_rows df)).

(** Lines 106-113 and 119-126: the pie of the first five entries, or the
    placeholder when the series is empty. *)
Definition category_chart (by_cat : list (string * Q))
    (title placeholder_title placeholder : string) : Figure :=
  if negb (is_empty by_cat)
  then
    let chart_data := head (Nat.min 5 (List.length by_cat)) by_cat in
    PieChart title (map snd chart_data) (map fst chart_data)
  else TextChart placeholder_title placeholder.


Definition create_category_charts : M (option Figure * option Figure) :=
  (d <- get_data ;;
   match d with
   | None => ret (None, None)
   | Some (Unprocessed _) => raise (KeyError "Amount")
   | Some (Ledger df) =>
       ret (Some (category_chart (expense_by_cat df)
                    "Top Expense Categories" "Expenses" "No expense data"),
            Some (category_chart (income_by_cat df)
                    "Top Income Categories" "Income" "No income data"))
   end)%method.

(** ** Notions used in the further properties *)

(** The posting date [load_data] gives a source cell. *)
Definition posting_date (strptime : string -> option Timestamp) (c : dcell)
    : option Timestamp :=
  match c with
  | DNull => None
  | DStamp d => Some d
  | DText s => strptime s
  end.




(** A statement with two categories of equal expense. *)
Definition tied_statement : RawFrame :=
  {| raw_has_Divisa := false;
     raw_has_Causale := false;
     raw_rows :=
       [ {| raw_Data_contabile := DText "12/03/2025";
            raw_Valuta := DText "12/03/2025";
            raw_Dare := NNum (-50.00); raw_Avere := NNull;
            raw_Divisa := None; raw_Causale := None;
            raw_Descrizione := Some "ADDEBITO DIRETTO";
            raw_Categoria := Some "Utenze";
            raw_Tag := None |};
         {| raw_Data_contabile := DText "13/03/2025";
            raw_Valuta := DText "13/03/2025";
            raw_Dare := NNum (-50.00); raw_Avere := NNull;
            raw_Divisa := None; raw_Causale := None;
            raw_Descrizione := Some "PAGAMENTO VISA";
            raw_Categoria := Some "Arte e Cultura";
            raw_Tag := None |} ] |}.

Definition read_tied (file_path : string) : exn + RawFrame := inr tied_statement.

(** The tracker after [load_data("movimenti.csv")] on that statement. *)
Definition tied_tracker : FinanceTracker :=
  after (load_data read_tied read_tied strptime_dmy (fun _ => None) "movimenti.csv")
        __init__.

(** * Properties *)

Local Close Scope method_scope.

(** ** Running the definitions *)

Example strftime_march_2025 :
  strftime_Y_m {| year := 2025; month := 3; day := 12 |} = "2025-03".
Proof. reflexivity. Qed.

Example endswith_extensions :
  endswith "sample_data.csv" ".csv" = true
  /\ endswith "report.xlsx" ".xls" = false
  /\ endswith "report.xlsx" ".xlsx" = true
  /\ endswith "csv" ".csv" = false.
Proof. repeat split; reflexivity. Qed.

Example strptime_sample_dates :
  strptime_dmy "12/03/2025" = Some {| year := 2025; month := 3; day := 12 |}
  /\ strptime_dmy "2025-03-12" = None.
Proof. split; reflexivity. Qed.

Example idxmax_first_of_ties :
  idxmax [("Arte e Cultura", 30); ("Ristoranti e bar", 100); ("Utenze", 100)]
  = Some "Ristoranti e bar".
Proof. reflexivity. Qed.

Example sample_category_summary :
  map (fun e => (label e, Transactions e))
      (category_summary (ledger_of (sample_tracker (fun _ => None))))
  = [("Ristoranti e bar", 1); ("Arte e Cultura", 1); ("Utenze", 1)]%nat.
Proof. vm_compute. reflexivity. Qed.

Example undated_row_in_category_summary :
  map (fun e => (label e, Transactions e))
      (category_summary (ledger_of undated_tracker))
  = [("Ristoranti e bar", 1); ("Arte e Cultura", 0)]%nat.
Proof. vm_compute. reflexivity. Qed.

(** ** The order on labels *)

Lemma ascii_compare_refl (a : ascii) : Ascii.compare a a = Eq.
Proof. unfold Ascii.compare. apply N.compare_refl. Qed.

Lemma ascii_compare_lt_trans (a b c : ascii) :
  Ascii.compare a b = Lt -> Ascii.compare b c = Lt -> Ascii.compare a c = Lt.
Proof.
  unfold Ascii.compare. rewrite !N.compare_lt_iff. apply N.lt_trans.
Qed.

Lemma str_compare_refl (s : string) : String.compare s s = Eq.
Proof.
  induction s as [|a s IH]; simpl; [reflexivity|].
  now rewrite ascii_compare_refl.
Qed.

Lemma str_compare_eq (s1 s2 : string) : String.compare s1 s2 = Eq <-> s1 = s2.
Proof.
  split; [apply String.compare_eq_iff|intros ->; apply str_compare_refl].
Qed.

Lemma str_compare_gt_lt (s1 s2 : string) :
  String.compare s1 s2 = Gt <-> String.compare s2 s1 = Lt.
Proof.
  rewrite (String.compare_antisym s2 s1).
  destruct (String.compare s1 s2); simpl; split; congruence.
Qed.

Lemma str_lt_trans (s1 s2 s3 : string) :
  str_lt s1 s2 -> str_lt s2 s3 -> str_lt s1 s3.
Proof.
  unfold str_lt. revert s2 s3.
  induction s1 as [|a s1 IH]; intros [|b s2] [|c s3]; simpl; try congruence.
  destruct (Ascii.compare a b) eqn:Hab; try discriminate;
    destruct (Ascii.compare b c) eqn:Hbc; try discriminate; intros H1 H2.
  - apply Ascii.compare_eq_iff in Hab, Hbc. subst.
    rewrite ascii_compare_refl. eauto.
  - apply Ascii.compare_eq_iff in Hab. subst. now rewrite Hbc.
  - apply Ascii.compare_eq_iff in Hbc. subst. now rewrite Hab.
  - now rewrite (ascii_compare_lt_trans _ _ _ Hab Hbc).
Qed.

Lemma str_lt_irrefl (s : string) : ~ str_lt s s.
Proof. unfold str_lt. rewrite str_compare_refl. discriminate. Qed.


(** ** Group labels *)

Lemma insert_key_In (k x : string) (ks : list string) :
  In x (insert_key k ks) <-> x = k \/ In x ks.
Proof.
  induction ks as [|k' ks IH]; simpl.
  - intuition.
  - destruct (String.compare k k') eqn:Hc; simpl.
    + apply str_compare_eq in Hc. subst. intuition.
    + intuition.
    + rewrite IH. intuition.
Qed.

Lemma insert_key_sorted (k : string) (ks : list string) :
  StronglySorted str_lt ks -> StronglySorted str_lt (insert_key k ks).
Proof.
  induction ks as [|k' ks IH]; simpl; intros Hs.
  - constructor; [constructor|constructor].
  - inversion Hs as [|? ? Hs' Hall]; subst.
    destruct (String.compare k k') eqn:Hc.
    + assumption.
    + constructor; [assumption|].
      constructor; [exact Hc|].
      eapply Forall_impl; [|exact Hall].
      intros x Hx. eapply str_lt_trans; [exact Hc|exact Hx].
    + constructor; [now apply IH|].
      apply Forall_forall. intros x Hx. apply insert_key_In in Hx.
      destruct Hx as [->|Hx].
      * now apply str_compare_gt_lt.
      * rewrite Forall_forall in Hall. now apply Hall.
Qed.

Lemma group_keys_sorted (col : Row -> option string) (l : list Row) :
  StronglySorted str_lt (group_keys col l).
Proof.
  induction l as [|r l IH]; simpl; [constructor|].
  destruct (col r); [now apply insert_key_sorted|assumption].
Qed.

Lemma group_keys_In (col : Row -> option string) (l : list Row) (k : string) :
  In k (group_keys col l) <-> exists r, In r l /\ col r = Some k.
Proof.
  induction l as [|r l IH]; simpl.
  - split; [tauto|intros (r & [] & _)].
  - destruct (col r) as [k'|] eqn:Hr.
    + rewrite insert_key_In, IH. split.
      * intros [->|(r' & Hin & Hk)]; eauto.
      * intros (r' & [<-|Hin] & Hk); [left; congruence|eauto].
    + rewrite IH. split.
      * intros (r' & Hin & Hk); eauto.
      * intros (r' & [<-|Hin] & Hk); [congruence|eauto].
Qed.

Lemma str_lt_sorted_NoDup (ks : list string) :
  StronglySorted str_lt ks -> NoDup ks.
Proof.
  induction 1 as [|k ks Hs IH Hall]; constructor; [|assumption].
  intros Hin. rewrite Forall_forall in Hall.
  exact (str_lt_irrefl k (Hall k Hin)).
Qed.

Lemma group_keys_NoDup (col : Row -> option string) (l : list Row) :
  NoDup (group_keys col l).
Proof. apply str_lt_sorted_NoDup, group_keys_sorted. Qed.

(** ** Sums *)

Lemma fold_left_Qplus_acc (l : list Q) (a : Q) :
  fold_left Qplus l a == a + series_sum l.
Proof.
  unfold series_sum. revert a.
  induction l as [|x l IH]; intros a; simpl.
  - ring.
  - rewrite (IH (a + x)), (IH (0 + x)). ring.
Qed.

Lemma series_sum_nil : series_sum [] = 0.
Proof. reflexivity. Qed.

Lemma series_sum_cons (x : Q) (l : list Q) :
  series_sum (x :: l) == x + series_sum l.
Proof.
  unfold series_sum at 1. simpl. rewrite fold_left_Qplus_acc. ring.
Qed.

Lemma series_sum_app (l1 l2 : list Q) :
  series_sum (l1 ++ l2) == series_sum l1 + series_sum l2.
Proof.
  induction l1 as [|x l1 IH]; simpl.
  - rewrite series_sum_nil. ring.
  - rewrite !series_sum_cons, IH. ring.
Qed.






(** ** A table is partitioned by its groups *)

Section Partition.

Variable col : Row -> option string.

Lemma has_key_true (k : string) (r : Row) :
  has_key col k r = true <-> col r = Some k.
Proof.
  unfold has_key. destruct (col r) as [k'|].
  - rewrite String.eqb_eq. split; congruence.
  - split; discriminate.
Qed.





End Partition.

(** ** Sorting *)

Section Sorting.

Context {A : Type} (leb : A -> A -> bool).
Hypothesis leb_total : forall x y, leb x y = true \/ leb y x = true.

Let le (x y : A) : Prop := leb x y = true.

Lemma insert_sorted_HdRel (a x : A) (l : list A) :
  le a x -> HdRel le a l -> HdRel le a (insert_sorted leb x l).
Proof.
  intros Hax Hal. destruct l as [|y l]; simpl.
  - now constructor.
  - destruct (leb x y); constructor; [assumption|now inversion Hal].
Qed.

Lemma insert_sorted_Sorted (x : A) (l : list A) :
  Sorted le l -> Sorted le (insert_sorted leb x l).
Proof.
  induction l as [|y l IH]; simpl; intros Hs.
  - repeat constructor.
  - destruct (leb x y) eqn:Hxy.
    + constructor; [assumption|now constructor].
    + inversion Hs as [|? ? Hs' Hhd]; subst.
      constructor; [now apply IH|].
      apply insert_sorted_HdRel; [|assumption].
      destruct (leb_total x y) as [H|H]; [congruence|exact H].
Qed.

Lemma sort_by_Sorted (l : list A) : Sorted le (sort_by leb l).
Proof.
  induction l as [|x l IH]; simpl; [constructor|].
  now apply insert_sorted_Sorted.
Qed.

Lemma insert_sorted_Permutation (x : A) (l : list A) :
  Permutation (x :: l) (insert_sorted leb x l).
Proof.
  induction l as [|y l IH]; simpl; [reflexivity|].
  destruct (leb x y); [reflexivity|].
  rewrite perm_swap. now constructor.
Qed.

Lemma sort_by_Permutation (l : list A) : Permutation l (sort_by leb l).
Proof.
  induction l as [|x l IH]; simpl; [constructor|].
  rewrite <- insert_sorted_Permutation. now constructor.
Qed.


End Sorting.

Lemma Qle_bool_total (x y : Q) : Qle_bool x y = true \/ Qle_bool y x = true.
Proof.
  rewrite !Qle_bool_iff.
  destruct (Qlt_le_dec x y) as [H|H]; [left; now apply Qlt_le_weak|now right].
Qed.

Lemma Qlt_bool_iff (x y : Q) : Qlt_bool x y = true <-> x < y.
Proof.
  unfold Qlt_bool. rewrite negb_true_iff, <- not_true_iff_false, Qle_bool_iff.
  split; [apply Qnot_le_lt|apply Qlt_not_le].
Qed.

Lemma Qlt_bool_false_iff (x y : Q) : Qlt_bool x y = false <-> y <= x.
Proof.
  unfold Qlt_bool. now rewrite negb_false_iff, Qle_bool_iff.
Qed.




(** ** The normaliser *)

Lemma map_or_raise_Forall2 {A B} (f : A -> exn + B) (l : list A) (l' : list B) :
  map_or_raise f l = inr l' -> Forall2 (fun x y => f x = inr y) l l'.
Proof.
  revert l'. induction l as [|x l IH]; simpl; intros l' H.
  - injection H as <-. constructor.
  - destruct (f x) as [e|y] eqn:Hx; [discriminate|].
    destruct (map_or_raise f l) as [e|ys]; [discriminate|].
    injection H as <-. constructor; auto.
Qed.

Lemma map_or_raise_total {A B} (f : A -> exn + B) (l : list A) :
  Forall (fun x => exists y, f x = inr y) l ->
  exists l', map_or_raise f l = inr l'.
Proof.
  induction 1 as [|x l (y & Hy) _ (l' & IH)]; simpl.
  - now exists [].
  - rewrite Hy, IH. now exists (y :: l').
Qed.

Lemma process_row_normalised tnt (raw : RawRow) (r : Row) :
  process_row tnt raw = inr r -> normalised tnt raw r.
Proof.
  unfold process_row, normalised.
  destruct (dt (raw_Data_contabile raw)) as [e|d]; [discriminate|].
  intros [= <-]. simpl. repeat split; reflexivity.
Qed.

Lemma normalised_without_Divisa_Causale tnt (raw : RawRow) (r : Row) :
  normalised tnt raw r -> normalised tnt raw (without_Divisa_Causale r).
Proof. unfold normalised. simpl. tauto. Qed.

Lemma Forall2_map_r {A B C} (R : A -> C -> Prop) (g : B -> C)
    (l : list A) (l' : list B) :
  Forall2 (fun x y => R x (g y)) l l' -> Forall2 R l (map g l').
Proof. induction 1; simpl; constructor; auto. Qed.

(** Every row of a processed table is the normalisation of the source row
    at the same position. *)
Lemma process_rows tnt (t : RawFrame) (df : DataFrame) :
  process tnt t = inr df ->
  Forall2 (normalised tnt) (raw_rows t) (rows df).
Proof.
  unfold process.
  destruct (map_or_raise (process_row tnt) (raw_rows t)) as [e|l] eqn:Hl;
    [discriminate|].
  intros [= <-]. apply map_or_raise_Forall2 in Hl.
  assert (H : Forall2 (normalised tnt) (raw_rows t) l).
  { eapply Forall2_impl; [|exact Hl]. apply process_row_normalised. }
  unfold drop_Divisa_Causale. simpl.
  destruct (raw_has_Divisa t && raw_has_Causale t); simpl; [|exact H].
  apply Forall2_map_r. eapply Forall2_impl; [|exact H].
  apply normalised_without_Divisa_Causale.
Qed.

Lemma process_derived_columns tnt (t : RawFrame) (df : DataFrame) :
  process tnt t = inr df -> Forall derived_columns (rows df).
Proof.
  intros H. apply process_rows in H.
  induction H as [|raw r l l' Hn _ IH]; constructor; [|exact IH].
  unfold normalised in Hn. unfold derived_columns. tauto.
Qed.

(** [process] succeeds once the posting dates no longer hold text. *)
Lemma process_total tnt (t : RawFrame) :
  forallb is_datetimelike (map raw_Data_contabile (raw_rows t)) = true ->
  exists df, process tnt t = inr df.
Proof.
  intros H. unfold process.
  destruct (map_or_raise_total (process_row tnt) (raw_rows t)) as (l & ->);
    [|eauto].
  rewrite forallb_forall in H. apply Forall_forall. intros r Hr.
  specialize (H (raw_Data_contabile r) (in_map _ _ _ Hr)).
  unfold process_row.
  destruct (raw_Data_contabile r); simpl in *; [eauto|discriminate|eauto].
Qed.

(** ** The loader *)

Lemma to_datetime_datetimelike sp (c c' : dcell) :
  to_datetime sp c = inr c' -> is_datetimelike c' = true.
Proof.
  destruct c as [|s|d]; simpl.
  - now intros [= <-].
  - destruct (sp s); [now intros [= <-]|discriminate].
  - now intros [= <-].
Qed.

Lemma convert_Data_contabile_rows sp (t t1 : RawFrame) :
  convert_Data_contabile sp t = inr t1 ->
  Forall2 (fun a b => to_datetime sp (raw_Data_contabile a) = inr (raw_Data_contabile b)
                      /\ b = with_Data_contabile a (raw_Data_contabile b))
          (raw_rows t) (raw_rows t1).
Proof.
  unfold convert_Data_contabile.
  destruct (map_or_raise _ (raw_rows t)) as [e|l] eqn:Hl; [discriminate|].
  intros [= <-]. simpl. apply map_or_raise_Forall2 in Hl.
  eapply Forall2_impl; [|exact Hl]. simpl. intros a b.
  destruct (to_datetime sp (raw_Data_contabile a)); [discriminate|].
  now intros [= <-].
Qed.

Lemma convert_Valuta_rows sp (t t1 : RawFrame) :
  convert_Valuta sp t = inr t1 ->
  Forall2 (fun a b => exists c, b = with_Valuta a c) (raw_rows t) (raw_rows t1).
Proof.
  unfold convert_Valuta.
  destruct (map_or_raise _ (raw_rows t)) as [e|l] eqn:Hl; [discriminate|].
  intros [= <-]. simpl. apply map_or_raise_Forall2 in Hl.
  eapply Forall2_impl; [|exact Hl]. simpl. intros a b.
  destruct (to_datetime sp (raw_Valuta a)); [discriminate|].
  intros [= <-]. eauto.
Qed.

Lemma Forall2_compose {A B C} (R : A -> B -> Prop) (S : B -> C -> Prop)
    (l1 : list A) (l2 : list B) (l3 : list C) :
  Forall2 R l1 l2 -> Forall2 S l2 l3 ->
  Forall2 (fun a c => exists b, R a b /\ S b c) l1 l3.
Proof.
  intros H. revert l3. induction H; intros l3 H3; inversion H3; subst;
    constructor; eauto.
Qed.

Lemma Forall2_refl {A} (R : A -> A -> Prop) (l : list A) :
  (forall x, R x x) -> Forall2 R l l.
Proof. intros H. induction l; constructor; auto. Qed.

(** A successful date conversion leaves a table that [process] accepts. *)
Lemma convert_dates_outcome sp (t : RawFrame) (self : FinanceTracker) :
  (exists e self', convert_dates sp t self = (inl e, self')
                   /\ exists t', data self' = Some (Unprocessed t') \/ self' = self)
  \/ (exists t', convert_dates sp t self = (inr tt, {| data := Some (Unprocessed t') |})
                 /\ Forall2 (dates_converted sp) (raw_rows t) (raw_rows t')
                 /\ forallb is_datetimelike (map raw_Data_contabile (raw_rows t')) = true).
Proof.
  unfold convert_dates, bind, call, set_data.
  destruct (convert_Data_contabile sp t) as [e|t1] eqn:H1.
  - left. exists e, self. split; [reflexivity|]. exists t. now right.
  - destruct (convert_Valuta sp t1) as [e|t2] eqn:H2.
    + left. exists e, {| data := Some (Unprocessed t1) |}.
      split; [reflexivity|]. exists t1. now left.
    + right. exists t2. split; [reflexivity|].
      apply convert_Data_contabile_rows in H1.
      apply convert_Valuta_rows in H2.
      pose proof (Forall2_compose _ _ _ _ _ H1 H2) as H.
      split.
      * eapply Forall2_impl; [|exact H]. simpl.
        intros a c (b & (Hd & Hb) & (v & ->)). unfold dates_converted. simpl.
        rewrite Hb. simpl. repeat split; auto.
      * clear H1 H2. induction H as [|a c l l' (b & (Hd & Hb) & (v & Hc)) _ IH];
          simpl; [reflexivity|].
        rewrite IH, andb_true_r. subst c. simpl.
        eapply to_datetime_datetimelike; eassumption.
Qed.

Lemma process_data_after_read tnt (t : RawFrame) :
  forall r, _process_data tnt {| data := Some (Unprocessed t) |} = r ->
  match process tnt t with
  | inl e => r = (inl e, {| data := Some (Unprocessed t) |})
  | inr df => r = (inr tt, {| data := Some (Ledger df) |})
  end.
Proof.
  intros r <-. unfold _process_data, bind, get_data, call, set_data. simpl.
  destruct (process tnt t); reflexivity.
Qed.

(** A load that returns has read a table, converted its dates, normalised
    it and stored the ledger it returns. *)
Lemma load_data_success rc re sp tnt (file_path : string)
    (self self' : FinanceTracker) (v : option Frame) :
  load_data rc re sp tnt file_path self = (inr v, self') ->
  exists t t' df,
    loaded_from rc re file_path t
    /\ Forall2 (dates_converted sp) (raw_rows t) (raw_rows t')
    /\ process tnt t' = inr df
    /\ v = Some (Ledger df)
    /\ self' = {| data := Some (Ledger df) |}.
Proof.
  unfold load_data, loaded_from.
  assert (Hfinish : forall t t',
    Forall2 (dates_converted sp) (raw_rows t) (raw_rows t') ->
    bind (_process_data tnt) (fun _ => get_data) {| data := Some (Unprocessed t') |}
      = (inr v, self') ->
    exists df, process tnt t' = inr df /\ v = Some (Ledger df)
               /\ self' = {| data := Some (Ledger df) |}).
  { intros t t' _ H. unfold bind in H.
    pose proof (process_data_after_read tnt t' _ eq_refl) as Hp.
    destruct (process tnt t') as [e|df]; rewrite Hp in H; [discriminate|].
    unfold get_data in H. simpl in H. injection H as <- <-. eauto. }
  destruct (endswith file_path ".csv") eqn:Hcsv.
  - unfold bind at 1 2 3. unfold call, set_data.
    destruct (rc file_path) as [e|t] eqn:Hr; [discriminate|].
    destruct (convert_dates_outcome sp t {| data := Some (Unprocessed t) |})
      as [(e & s & He & _)|(t' & Ht' & Hrows & _)].
    + rewrite He. discriminate.
    + rewrite Ht'. intros H.
      destruct (Hfinish t t' Hrows H) as (df & Hdf & Hv & Hs).
      exists t, t', df. auto 10.
  - destruct (endswith file_path ".xlsx" || endswith file_path ".xls") eqn:Hx.
    + unfold bind at 1 2 3. unfold call, set_data.
      destruct (re file_path) as [e|t] eqn:Hr; [discriminate|].
      destruct (is_datetime64_any_dtype (map raw_Data_contabile (raw_rows t))); simpl.
      * intros H.
        assert (Hrows : Forall2 (dates_converted sp) (raw_rows t) (raw_rows t))
          by (apply Forall2_refl; unfold dates_converted; auto 10).
        destruct (Hfinish t t Hrows H) as (df & Hdf & Hv & Hs).
        exists t, t, df. auto 10.
      * destruct (convert_dates_outcome sp t {| data := Some (Unprocessed t) |})
          as [(e & s & He & _)|(t' & Ht' & Hrows & _)].
        -- rewrite He. discriminate.
        -- rewrite Ht'. intros H.
           destruct (Hfinish t t' Hrows H) as (df & Hdf & Hv & Hs).
           exists t, t', df. auto 10.
    + unfold bind, raise. discriminate.
Qed.

(** [load_data] hands [_process_data] a table it accepts. *)
Lemma process_after_conversion sp tnt (t t' : RawFrame) (self : FinanceTracker) :
  convert_dates sp t self = (inr tt, {| data := Some (Unprocessed t') |}) ->
  exists df, process tnt t' = inr df.
Proof.
  intros H.
  destruct (convert_dates_outcome sp t self)
    as [(e & s & He & _)|(t'' & Ht'' & _ & Hlike)].
  - rewrite He in H. discriminate.
  - rewrite Ht'' in H. injection H as <-. now apply process_total.
Qed.

Lemma process_typed_column tnt (t : RawFrame) :
  is_datetime64_any_dtype (map raw_Data_contabile (raw_rows t)) = true ->
  exists df, process tnt t = inr df.
Proof.
  unfold is_datetime64_any_dtype. intros H.
  apply andb_true_iff in H. apply process_total. tauto.
Qed.

Lemma to_datetime_raises sp (c : dcell) (e : exn) :
  to_datetime sp c = inl e ->
  e = ValueError "time data does not match format '%d/%m/%Y'".
Proof.
  destruct c as [|s|d]; simpl; try discriminate.
  destruct (sp s); [discriminate|]. now intros [= <-].
Qed.

Lemma map_or_raise_raises {A B} (f : A -> exn + B) (l : list A) (e : exn) :
  map_or_raise f l = inl e -> exists x, In x l /\ f x = inl e.
Proof.
  induction l as [|x l IH]; simpl; [discriminate|].
  destruct (f x) as [e'|y] eqn:Hx.
  - intros [= <-]. eauto.
  - destruct (map_or_raise f l) as [e'|ys]; [|discriminate].
    intros [= <-]. destruct (IH eq_refl) as (x' & Hin & Hx'). eauto.
Qed.

Lemma convert_dates_raises sp (t : RawFrame) (self self' : FinanceTracker) (e : exn) :
  convert_dates sp t self = (inl e, self') ->
  e = ValueError "time data does not match format '%d/%m/%Y'"
  /\ (self' = self \/ exists t', self' = {| data := Some (Unprocessed t') |}).
Proof.
  unfold convert_dates, bind, call, set_data.
  destruct (convert_Data_contabile sp t) as [e1|t1] eqn:H1.
  - intros [= <- <-]. split; [|now left].
    unfold convert_Data_contabile in H1.
    destruct (map_or_raise _ (raw_rows t)) as [e'|l] eqn:Hl; [|discriminate].
    injection H1 as ->. apply map_or_raise_raises in Hl.
    destruct Hl as (r & _ & Hr).
    destruct (to_datetime sp (raw_Data_contabile r)) as [e'|c] eqn:Hc;
      [|discriminate].
    injection Hr as ->. eapply to_datetime_raises; eassumption.
  - destruct (convert_Valuta sp t1) as [e2|t2] eqn:H2; [|discriminate].
    intros [= <- <-]. split; [|right; eauto].
    unfold convert_Valuta in H2.
    destruct (map_or_raise _ (raw_rows t1)) as [e'|l] eqn:Hl; [|discriminate].
    injection H2 as ->. apply map_or_raise_raises in Hl.
    destruct Hl as (r & _ & Hr).
    destruct (to_datetime sp (raw_Valuta r)) as [e'|c] eqn:Hc; [|discriminate].
    injection Hr as ->. eapply to_datetime_raises; eassumption.
Qed.

(** A load that raises either stopped before it assigned a table, and the
    tracker is as it was, or stopped in the date conversion, and the tracker
    holds the table as read. *)
Lemma load_data_raises rc re sp tnt (file_path : string)
    (self self' : FinanceTracker) (e : exn) :
  load_data rc re sp tnt file_path self = (inl e, self') ->
  self' = self
  \/ (e = ValueError "time data does not match format '%d/%m/%Y'"
      /\ exists t, loaded_from rc re file_path t
                   /\ exists t', data self' = Some (Unprocessed t')).
Proof.
  unfold load_data, loaded_from.
  assert (Hfinish : forall t',
    (exists df, process tnt t' = inr df) ->
    bind (_process_data tnt) (fun _ => get_data) {| data := Some (Unprocessed t') |}
      = (inl e, self') -> False).
  { intros t' (df & Hdf) H. unfold bind in H.
    pose proof (process_data_after_read tnt t' _ eq_refl) as Hp.
    rewrite Hdf in Hp. rewrite Hp in H. discriminate. }
  destruct (endswith file_path ".csv") eqn:Hcsv.
  - unfold bind at 1 2 3. unfold call, set_data.
    destruct (rc file_path) as [e'|t] eqn:Hr; [intros [= <- <-]; now left|].
    destruct (convert_dates sp t {| data := Some (Unprocessed t) |})
      as [[e'|[]] s] eqn:Hc.
    + intros [= <- <-]. right. apply convert_dates_raises in Hc.
      destruct Hc as [He Hs]. split; [exact He|]. exists t. split; [auto|].
      destruct Hs as [->|(t' & ->)]; simpl; eauto.
    + intros H. exfalso.
      destruct (convert_dates_outcome sp t {| data := Some (Unprocessed t) |})
        as [(e' & s' & He & _)|(t' & Ht' & _ & Hlike)];
        rewrite Hc in *; [discriminate|].
      injection Ht' as ->.
      exact (Hfinish t' (process_total tnt t' Hlike) H).
  - destruct (endswith file_path ".xlsx" || endswith file_path ".xls") eqn:Hx.
    + unfold bind at 1 2 3. unfold call, set_data.
      destruct (re file_path) as [e'|t] eqn:Hr; [intros [= <- <-]; now left|].
      destruct (is_datetime64_any_dtype (map raw_Data_contabile (raw_rows t)))
        eqn:Htyped; cbn [negb].
      * intros H. exfalso.
        exact (Hfinish t (process_typed_column tnt t Htyped) H).
      * destruct (convert_dates sp t {| data := Some (Unprocessed t) |})
          as [[e'|[]] s] eqn:Hc.
        -- intros [= <- <-]. right. apply convert_dates_raises in Hc.
           destruct Hc as [He Hs]. split; [exact He|]. exists t. split; [auto|].
           destruct Hs as [->|(t' & ->)]; simpl; eauto.
        -- intros H. exfalso.
           destruct (convert_dates_outcome sp t {| data := Some (Unprocessed t) |})
             as [(e' & s' & He & _)|(t' & Ht' & _ & Hlike)];
             rewrite Hc in *; [discriminate|].
           injection Ht' as ->.
           exact (Hfinish t' (process_total tnt t' Hlike) H).
    + unfold bind, raise. intros [= <- <-]. now left.
Qed.

(** ** Amounts (C1) *)

Lemma fillna0_to_numeric tnt (c : ncell) :
  fillna0 (to_numeric tnt c) = value_or_zero tnt c.
Proof. destruct c as [|q|s]; simpl; [reflexivity|reflexivity|]. now destruct (tnt s). Qed.

Lemma unparsed_to_numeric tnt (c : ncell) :
  unparsed tnt c <-> to_numeric tnt c = None.
Proof. destruct c as [|q|s]; simpl; intuition discriminate. Qed.

(** C1.  Every ledger produced by a successful load lines up, row by row,
    with the table that was read, and the amount of each row is the credit
    value plus the debit value of its source row, where a cell that is empty
    or does not read as a number counts as zero; when both cells are such,
    the amount is 0. *)
Theorem amount_is_credit_plus_debit
    (read_csv read_excel : string -> exn + RawFrame)
    (strptime : string -> option Timestamp)
    (to_numeric_text : string -> option Q)
    (file_path : string) (self self' : FinanceTracker) (v : option Frame) :
  load_data read_csv read_excel strptime to_numeric_text file_path self = (inr v, self') ->
  exists t df,
    loaded_from read_csv read_excel file_path t
    /\ v = Some (Ledger df)
    /\ data self' = Some (Ledger df)
    /\ Forall2
         (fun raw r =>
            Amount r = value_or_zero to_numeric_text (raw_Avere raw)
                       + value_or_zero to_numeric_text (raw_Dare raw)
            /\ (unparsed to_numeric_text (raw_Avere raw) ->
                unparsed to_numeric_text (raw_Dare raw) ->
                Amount r = 0))
         (raw_rows t) (rows df).
Proof.
  intros H. apply load_data_success in H.
  destruct H as (t & t' & df & Hfrom & Hconv & Hproc & -> & ->).
  exists t, df. repeat split; auto.
  apply process_rows in Hproc.
  pose proof (Forall2_compose _ _ _ _ _ Hconv Hproc) as H.
  eapply Forall2_impl; [|exact H]. simpl.
  intros raw r (b & Hb & Hn).
  destruct Hb as (_ & HD & HA & _).
  destruct Hn as (Hd & Ha & Hamt & _).
  rewrite HD in Hd. rewrite HA in Ha.
  assert (Heq : Amount r = value_or_zero to_numeric_text (raw_Avere raw)
                           + value_or_zero to_numeric_text (raw_Dare raw)).
  { rewrite Hamt, Ha, Hd, !fillna0_to_numeric. reflexivity. }
  split; [exact Heq|].
  intros Hua Hud. rewrite Heq.
  apply unparsed_to_numeric in Hua, Hud.
  rewrite <- !fillna0_to_numeric, Hua, Hud. reflexivity.
Qed.

Lemma amount_is_credit_plus_debit_witness :
  exists self' v,
    load_data read_sample read_sample strptime_dmy (fun _ => None)
              "sample_data.csv" __init__ = (inr v, self')
    /\ exists t df,
         loaded_from read_sample read_sample "sample_data.csv" t
         /\ v = Some (Ledger df)
         /\ data self' = Some (Ledger df)
         /\ Forall2
              (fun raw r =>
                 Amount r = value_or_zero (fun _ => None) (raw_Avere raw)
                            + value_or_zero (fun _ => None) (raw_Dare raw)
                 /\ (unparsed (fun _ => None) (raw_Avere raw) ->
                     unparsed (fun _ => None) (raw_Dare raw) ->
                     Amount r = 0))
              (raw_rows t) (rows df).
Proof.
  eexists. eexists. split; [vm_compute; reflexivity|].
  eapply (amount_is_credit_plus_debit read_sample read_sample strptime_dmy
            (fun _ => None) "sample_data.csv" __init__).
  vm_compute. reflexivity.
Defined.

(** ** Period keys (C5) *)
















(** ** The monthly summary (C2) *)

Lemma filter_filter {A} (p q : A -> bool) (l : list A) :
  filter q (filter p l) = filter (fun x => p x && q x) l.
Proof.
  induction l as [|x l IH]; simpl; [reflexivity|].
  destruct (p x); simpl; [|exact IH]. destruct (q x); now rewrite IH.
Qed.










Lemma get_monthly_summary_ledger (df : DataFrame) :
  get_monthly_summary {| data := Some (Ledger df) |}
  = (inr (Table (monthly_summary df)), {| data := Some (Ledger df) |}).
Proof. reflexivity. Qed.




(** ** The category summary (C6) *)

Lemma Sorted_adjacent {A} (R : A -> A -> Prop) (l1 l2 : list A) (a b : A) :
  Sorted R (l1 ++ a :: b :: l2) -> R a b.
Proof.
  induction l1 as [|x l1 IH]; simpl; intros Hs.
  - inversion Hs as [|? ? _ Hhd]; subst. now inversion Hhd.
  - inversion Hs; subst. now apply IH.
Qed.

Lemma category_summary_sorted (df : DataFrame) :
  Sorted (fun a b => total a <= total b) (category_summary df).
Proof.
  unfold category_summary, sort_values_Amount.
  pose proof (sort_by_Sorted (fun a b => Qle_bool (total a) (total b))
                (fun a b => Qle_bool_total (total a) (total b))
                (groupby_agg Categoria (rows df))) as Hs.
  induction Hs as [|e s Hs IH Hhd]; constructor; [exact IH|].
  destruct Hhd as [|e' s' He]; constructor.
  now apply Qle_bool_iff.
Qed.

(** C6.  On a loaded ledger, [get_category_summary] returns the category
    groups ordered by summed amount: of two adjacent entries the first has
    an amount less than or equal to the second's. *)
Theorem category_summary_sorted_by_amount (df : DataFrame) :
  let self := {| data := Some (Ledger df) |} in
  get_category_summary self = (inr (Table (category_summary df)), self)
  /\ Permutation (groupby_agg Categoria (rows df)) (category_summary df)
  /\ Sorted (fun a b => total a <= total b) (category_summary df)
  /\ forall before a b rest,
       category_summary df = (before ++ a :: b :: rest)%list -> total a <= total b.
Proof.
  split; [reflexivity|]. split; [apply sort_by_Permutation|].
  split; [apply category_summary_sorted|].
  intros before a b rest Heq.
  pose proof (category_summary_sorted df) as Hs. rewrite Heq in Hs.
  exact (Sorted_adjacent _ _ _ _ _ Hs).
Qed.

(** ** Basic statistics (C7) *)

Lemma filter_map_commute {A B} (f : A -> B) (p : B -> bool) (l : list A) :
  filter p (map f l) = map f (filter (fun x => p (f x)) l).
Proof.
  induction l as [|x l IH]; simpl; [reflexivity|].
  destruct (p (f x)); simpl; now rewrite IH.
Qed.

Lemma negative_amounts_rows (df : DataFrame) :
  map Amount (negative_rows df) = negative_amounts df.
Proof. unfold negative_amounts, negative_rows. now rewrite filter_map_commute. Qed.

Lemma positive_amounts_rows (df : DataFrame) :
  map Amount (positive_rows df) = positive_amounts df.
Proof. unfold positive_amounts, positive_rows. now rewrite filter_map_commute. Qed.

Lemma is_empty_nil {A} (l : list A) : is_empty l = true <-> l = [].
Proof. destruct l; simpl; split; congruence. Qed.

Lemma map_eq_nil_iff {A B} (f : A -> B) (l : list A) : map f l = [] <-> l = [].
Proof. destruct l; simpl; split; congruence. Qed.

(** [idxmax] returns the label of an entry that no entry exceeds. *)
Lemma idxmax_from_max (best : string * Q) (s : list (string * Q)) :
  exists kv, In kv (best :: s)
             /\ fst kv = idxmax_from best s
             /\ forall kv', In kv' (best :: s) -> snd kv' <= snd kv.
Proof.
  revert best. induction s as [|x s IH]; intros best; simpl.
  - exists best. split; [now left|]. split; [reflexivity|].
    intros kv' [<-|[]]. apply Qle_refl.
  - destruct (Qlt_bool (snd best) (snd x)) eqn:Hlt.
    + destruct (IH x) as (kv & Hin & Hk & Hmax).
      exists kv. split; [now right|]. split; [exact Hk|].
      intros kv' [<-|Hin'].
      * apply Qlt_bool_iff in Hlt. apply Qlt_le_weak.
        eapply Qlt_le_trans; [exact Hlt|]. apply Hmax. now left.
      * now apply Hmax.
    + destruct (IH best) as (kv & Hin & Hk & Hmax).
      exists kv. split.
      { destruct Hin as [<-|Hin]; [now left|now right; right]. }
      split; [exact Hk|].
      intros kv' [<-|[<-|Hin']].
      * apply Hmax. now left.
      * apply Qlt_bool_false_iff in Hlt.
        eapply Qle_trans; [exact Hlt|]. apply Hmax. now left.
      * apply Hmax. now right.
Qed.

Lemma idxmax_max (s : list (string * Q)) (k : string) :
  idxmax s = Some k ->
  exists v, In (k, v) s /\ forall kv, In kv s -> snd kv <= v.
Proof.
  destruct s as [|best s]; simpl; [discriminate|].
  intros [= <-].
  destruct (idxmax_from_max best s) as ([k v] & Hin & Hk & Hmax).
  simpl in Hk. subst k. exists v. split; [exact Hin|exact Hmax].
Qed.

Lemma idxmax_some (s : list (string * Q)) : s <> [] -> exists k, idxmax s = Some k.
Proof. destruct s; [congruence|simpl; eauto]. Qed.

Lemma group_keys_nonempty (col : Row -> option string) (l : list Row) :
  existsb (fun r => is_notnull (col r)) l = true -> group_keys col l <> [].
Proof.
  intros H. apply existsb_exists in H. destruct H as (r & Hr & Hn).
  destruct (col r) as [k|] eqn:Hk; [|discriminate].
  assert (Hin : In k (group_keys col l)) by (apply group_keys_In; eauto).
  intros Hnil. rewrite Hnil in Hin. destruct Hin.
Qed.

Lemma idxmax_map_keys (f : string -> Q) (ks : list string) (k : string) :
  idxmax (map (fun c => (c, f c)) ks) = Some k ->
  In k ks /\ forall c, In c ks -> f c <= f k.
Proof.
  intros H. apply idxmax_max in H. destruct H as (v & Hin & Hmax).
  apply in_map_iff in Hin. destruct Hin as (k' & [= -> <-] & Hk).
  split; [exact Hk|].
  intros c Hc. apply (Hmax (c, f c)). apply in_map_iff. eauto.
Qed.

Lemma group_of_filter (p : Row -> bool) (c : string) (l : list Row) :
  group Categoria c (filter p l)
  = filter (fun r => p r && has_key Categoria c r) l.
Proof. unfold group. apply filter_filter. Qed.

Lemma expense_category_keys (df : DataFrame) (c : string) :
  In c (group_keys Categoria (negative_rows df)) <-> expense_category df c.
Proof.
  rewrite group_keys_In. unfold expense_category, negative_rows.
  split; intros (r & Hr & Hc).
  - apply filter_In in Hr. destruct Hr as [Hr Hn].
    apply Qlt_bool_iff in Hn. eauto.
  - destruct Hc as [Hn Hc]. exists r. split; [|exact Hc].
    apply filter_In. split; [exact Hr|]. now apply Qlt_bool_iff.
Qed.

Lemma income_category_keys (df : DataFrame) (c : string) :
  In c (group_keys Categoria (positive_rows df)) <-> income_category df c.
Proof.
  rewrite group_keys_In. unfold income_category, positive_rows.
  split; intros (r & Hr & Hc).
  - apply filter_In in Hr. destruct Hr as [Hr Hn].
    apply Qlt_bool_iff in Hn. eauto.
  - destruct Hc as [Hn Hc]. exists r. split; [|exact Hc].
    apply filter_In. split; [exact Hr|]. now apply Qlt_bool_iff.
Qed.

Lemma expense_series (df : DataFrame) :
  series_abs (groupby_sum Categoria (negative_rows df))
  = map (fun c => (c, Qabs (expense_total df c)))
        (group_keys Categoria (negative_rows df)).
Proof.
  unfold series_abs, groupby_sum. rewrite map_map. apply map_ext.
  intros c. cbn [fst snd]. unfold expense_total, negative_rows.
  now rewrite group_of_filter.
Qed.

Lemma income_series (df : DataFrame) :
  groupby_sum Categoria (positive_rows df)
  = map (fun c => (c, income_total df c))
        (group_keys Categoria (positive_rows df)).
Proof.
  unfold groupby_sum. apply map_ext.
  intros c. unfold income_total, positive_rows.
  now rewrite group_of_filter.
Qed.

(** What the selection of the top expense category returns, and when it
    raises. *)
Lemma top_expense_cat_cases (df : DataFrame) :
  match top_expense_cat df with
  | inr k =>
      (negative_amounts df = [] /\ k = "N/A")
      \/ (negative_amounts df <> []
          /\ expense_category df k
          /\ forall c, expense_category df c ->
               Qabs (expense_total df c) <= Qabs (expense_total df k))
  | inl e =>
      e = ValueError "attempt to get argmax of an empty sequence"
      /\ negative_amounts df <> []
      /\ forall r, In r (negative_rows df) -> Categoria r = None
  end.
Proof.
  assert (Hnil : negative_amounts df = [] <-> negative_rows df = [])
    by (rewrite <- negative_amounts_rows; apply map_eq_nil_iff).
  unfold top_expense_cat.
  destruct (negative_rows df) as [|r0 l0] eqn:Hneg; cbn [is_empty negb].
  - left. split; [now apply Hnil|reflexivity].
  - assert (Hne : negative_amounts df <> [])
      by (intros H; apply Hnil in H; discriminate).
    rewrite <- Hneg. unfold idxmax_or_raise. rewrite expense_series.
    destruct (idxmax _) as [k|] eqn:Hmax.
    + right. apply idxmax_map_keys in Hmax. destruct Hmax as [Hk Hle].
      split; [exact Hne|].
      split; [now apply expense_category_keys|].
      intros c Hc. apply Hle. now apply expense_category_keys.
    + split; [reflexivity|]. split; [exact Hne|].
      intros r Hr. destruct (Categoria r) as [c|] eqn:Hc; [|reflexivity].
      assert (Hin : In c (group_keys Categoria (negative_rows df)))
        by (apply group_keys_In; eauto).
      destruct (group_keys Categoria (negative_rows df)); [destruct Hin|].
      discriminate.
Qed.

Lemma top_income_cat_cases (df : DataFrame) :
  match top_income_cat df with
  | inr k =>
      (positive_amounts df = [] /\ k = "N/A")
      \/ (positive_amounts df <> []
          /\ income_category df k
          /\ forall c, income_category df c ->
               income_total df c <= income_total df k)
  | inl e =>
      e = ValueError "attempt to get argmax of an empty sequence"
      /\ positive_amounts df <> []
      /\ forall r, In r (positive_rows df) -> Categoria r = None
  end.
Proof.
  assert (Hnil : positive_amounts df = [] <-> positive_rows df = [])
    by (rewrite <- positive_amounts_rows; apply map_eq_nil_iff).
  unfold top_income_cat.
  destruct (positive_rows df) as [|r0 l0] eqn:Hpos; cbn [is_empty negb].
  - left. split; [now apply Hnil|reflexivity].
  - assert (Hne : positive_amounts df <> [])
      by (intros H; apply Hnil in H; discriminate).
    rewrite <- Hpos. unfold idxmax_or_raise. rewrite income_series.
    destruct (idxmax _) as [k|] eqn:Hmax.
    + right. apply idxmax_map_keys in Hmax. destruct Hmax as [Hk Hle].
      split; [exact Hne|].
      split; [now apply income_category_keys|].
      intros c Hc. apply Hle. now apply income_category_keys.
    + split; [reflexivity|]. split; [exact Hne|].
      intros r Hr. destruct (Categoria r) as [c|] eqn:Hc; [|reflexivity].
      assert (Hin : In c (group_keys Categoria (positive_rows df)))
        by (apply group_keys_In; eauto).
      destruct (group_keys Categoria (positive_rows df)); [destruct Hin|].
      discriminate.
Qed.

Lemma some_labelled_not_all_null (l : list Row) :
  some_labelled l = true ->
  l <> [] -> (forall r, In r l -> Categoria r = None) -> False.
Proof.
  unfold some_labelled. intros H Hne Hall.
  apply orb_true_iff in H. destruct H as [H|H].
  - apply is_empty_nil in H. contradiction.
  - apply existsb_exists in H. destruct H as (r & Hr & Hn).
    rewrite (Hall r Hr) in Hn. discriminate.
Qed.

Lemma avg_expense_mean (df : DataFrame) :
  avg_expense df
  = if is_empty (negative_amounts df) then 0 else series_mean (negative_amounts df).
Proof.
  unfold avg_expense. rewrite <- negative_amounts_rows.
  destruct (negative_rows df); reflexivity.
Qed.

Lemma avg_income_mean (df : DataFrame) :
  avg_income df
  = if is_empty (positive_amounts df) then 0 else series_mean (positive_amounts df).
Proof.
  unfold avg_income. rewrite <- positive_amounts_rows.
  destruct (positive_rows df); reflexivity.
Qed.

(** X15.  On a loaded ledger in which the transactions with a negative
    amount, when there are any, include one with a category, and likewise
    those with a positive amount, [get_basic_stats] returns its dictionary;
    there the average expense is the mean of the negative amounts (0 when
    there are none), the average income the mean of the positive amounts
    (0 when there are none), the top expense category is "N/A" when no
    amount is negative and otherwise a category of a negative transaction
    whose summed negative amounts are largest in absolute value, and the
    top income category is "N/A" when no amount is positive and otherwise a
    category of a positive transaction whose summed positive amounts are
    largest.  Transactions without a category take no part in the
    selection. *)
Theorem basic_stats_averages_and_top_categories (df : DataFrame) :
  some_labelled (negative_rows df) = true ->
  some_labelled (positive_rows df) = true ->
  let self := {| data := Some (Ledger df) |} in
  exists s,
    get_basic_stats self = (inr (StatsDict s), self)
    /\ Average_Expense s
       = (if is_empty (negative_amounts df) then 0
          else series_mean (negative_amounts df))
    /\ Average_Income s
       = (if is_empty (positive_amounts df) then 0
          else series_mean (positive_amounts df))
    /\ (negative_amounts df = [] -> Top_Expense_Category s = "N/A")
    /\ (negative_amounts df <> [] ->
          expense_category df (Top_Expense_Category s)
          /\ forall c, expense_category df c ->
               Qabs (expense_total df c)
               <= Qabs (expense_total df (Top_Expense_Category s)))
    /\ (positive_amounts df = [] -> Top_Income_Category s = "N/A")
    /\ (positive_amounts df <> [] ->
          income_category df (Top_Income_Category s)
          /\ forall c, income_category df c ->
               income_total df c <= income_total df (Top_Income_Category s)).
Proof.
  intros Hneg Hpos self.
  pose proof (top_expense_cat_cases df) as He.
  pose proof (top_income_cat_cases df) as Hi.
  unfold self, get_basic_stats, bind, get_data, call, ret. cbn [data].
  unfold basic_stats.
  destruct (top_expense_cat df) as [e|ke].
  { exfalso. destruct He as (_ & Hne & Hall).
    apply (some_labelled_not_all_null _ Hneg); [|exact Hall].
    intros Hnil. apply Hne. now rewrite <- negative_amounts_rows, Hnil. }
  destruct (top_income_cat df) as [e|ki].
  { exfalso. destruct Hi as (_ & Hne & Hall).
    apply (some_labelled_not_all_null _ Hpos); [|exact Hall].
    intros Hnil. apply Hne. now rewrite <- positive_amounts_rows, Hnil. }
  eexists. split; [reflexivity|]. cbn.
  split; [apply avg_expense_mean|]. split; [apply avg_income_mean|].
  split; [|split; [|split]].
  - intros Hnil. destruct He as [[_ ->]|[Hne _]]; [reflexivity|contradiction].
  - intros Hne. destruct He as [[Hnil _]|[_ H]]; [contradiction|exact H].
  - intros Hnil. destruct Hi as [[_ ->]|[Hne _]]; [reflexivity|contradiction].
  - intros Hne. destruct Hi as [[Hnil _]|[_ H]]; [contradiction|exact H].
Qed.

Lemma basic_stats_averages_and_top_categories_witness :
  exists s,
    get_basic_stats (sample_tracker (fun _ => None))
    = (inr (StatsDict s), sample_tracker (fun _ => None))
    /\ Average_Expense s == -141.50 / 3
    /\ Average_Income s == 0
    /\ Top_Expense_Category s = "Ristoranti e bar"
    /\ Top_Income_Category s = "N/A".
Proof.
  destruct (basic_stats_averages_and_top_categories
              (ledger_of (sample_tracker (fun _ => None))))
    as (s & Hs & _).
  - vm_compute. reflexivity.
  - vm_compute. reflexivity.
  - exists s. split; [exact Hs|].
    vm_compute in Hs. injection Hs as <-.
    split; [vm_compute; reflexivity|]. split; [vm_compute; reflexivity|].
    split; reflexivity.
Defined.

(** C7 (a defect of the program).  The statement [unlabelled_statement]
    holds one expense of 100.00 that has no category.  Once it is loaded
    there is a negative amount, so the test of line 217,
    [not self.data[self.data['Amount'] < 0].empty], passes; [groupby] drops
    the row, the grouped series is empty, [idxmax] raises and
    [get_basic_stats] returns no dictionary: no average, no "N/A".  On the
    same ledger [create_category_charts], which tests the grouped series
    (line 106), shows the placeholder ['No expense data']. *)
Theorem basic_stats_fails_on_expense_without_category :
  exists df,
    data unlabelled_tracker = Some (Ledger df)
    /\ negative_amounts df = [-100.00]
    /\ positive_amounts df = []
    /\ is_empty (negative_rows df) = false
    /\ groupby_sum Categoria (negative_rows df) = []
    /\ get_basic_stats unlabelled_tracker
       = (inl (ValueError "attempt to get argmax of an empty sequence"),
          unlabelled_tracker)
    /\ create_category_charts unlabelled_tracker
       = (inr (Some (TextChart "Expenses" "No expense data"),
               Some (TextChart "Income" "No income data")),
          unlabelled_tracker).
Proof.
  eexists. split; [vm_compute; reflexivity|].
  repeat split; vm_compute; reflexivity.
Qed.

(** ** Transactions of amount zero (C10) *)









(** ** The queries do not touch the ledger (C8) *)

Lemma get_monthly_summary_frame (self : FinanceTracker) :
  after get_monthly_summary self = self.
Proof.
  unfold after, get_monthly_summary, bind, get_data, ret, raise.
  destruct self as [[[t|df]|]]; reflexivity.
Qed.

Lemma get_category_summary_frame (self : FinanceTracker) :
  after get_category_summary self = self.
Proof.
  unfold after, get_category_summary, bind, get_data, ret, raise.
  destruct self as [[[t|df]|]]; reflexivity.
Qed.

Lemma get_basic_stats_frame (self : FinanceTracker) :
  after get_basic_stats self = self.
Proof.
  unfold after, get_basic_stats, bind, get_data, ret, raise, call.
  destruct self as [[[t|df]|]]; cbn [data fst snd]; try reflexivity.
  destruct (basic_stats df); reflexivity.
Qed.

Lemma after_query_frame (q : query) (self : FinanceTracker) :
  after_query q self = self.
Proof.
  destruct q; simpl;
    auto using get_monthly_summary_frame, get_category_summary_frame,
               get_basic_stats_frame.
Qed.

(** C8.  Whatever sequence of [get_monthly_summary], [get_category_summary]
    and [get_basic_stats] calls is made, the tracker, and with it the
    stored table, is afterwards what it was before, and each of the three
    returns then what it returned before. *)
Theorem queries_leave_ledger_unchanged (qs : list query) (self : FinanceTracker) :
  after_queries qs self = self
  /\ data (after_queries qs self) = data self
  /\ result get_monthly_summary (after_queries qs self)
     = result get_monthly_summary self
  /\ result get_category_summary (after_queries qs self)
     = result get_category_summary self
  /\ result get_basic_stats (after_queries qs self)
     = result get_basic_stats self.
Proof.
  assert (H : after_queries qs self = self).
  { unfold after_queries. revert self.
    induction qs as [|q qs IH]; intros self; simpl; [reflexivity|].
    now rewrite after_query_frame. }
  rewrite H. auto.
Qed.

(** ** A loaded ledger without rows (C9) *)

Lemma load_data_empty rc re sp tnt (file_path : string) (t : RawFrame)
    (self : FinanceTracker) :
  loaded_from rc re file_path t ->
  raw_rows t = [] ->
  exists df,
    load_data rc re sp tnt file_path self
    = (inr (Some (Ledger df)), {| data := Some (Ledger df) |})
    /\ rows df = [].
Proof.
  intros Hfrom Hrows. destruct t as [hd hc l]. simpl in Hrows. subst l.
  exists (drop_Divisa_Causale {| has_Divisa := hd; has_Causale := hc; rows := [] |}).
  split.
  - unfold load_data.
    destruct Hfrom as [[Hcsv Hread]|(Hcsv & Hx & Hread)]; rewrite Hcsv; [|rewrite Hx];
      unfold bind at 1 2 3; unfold call, set_data; rewrite Hread; reflexivity.
  - unfold drop_Divisa_Causale. cbn [has_Divisa has_Causale].
    destruct (hd && hc); reflexivity.
Qed.

(** C9.  The message is returned only by a tracker that holds no table.
    After the successful load of a table without rows the tracker holds a
    ledger without rows, on which both summaries are empty tables and the
    statistics are all 0, with "N/A" for both top categories. *)
Theorem empty_ledger_is_not_no_data
    (read_csv read_excel : string -> exn + RawFrame)
    (strptime : string -> option Timestamp)
    (to_numeric_text : string -> option Q)
    (file_path : string) (t : RawFrame) (self : FinanceTracker) :
  loaded_from read_csv read_excel file_path t ->
  raw_rows t = [] ->
  (forall any : FinanceTracker,
     (result get_monthly_summary any = inr (Message NO_DATA) -> data any = None)
     /\ (result get_category_summary any = inr (Message NO_DATA) -> data any = None)
     /\ (forall msg, result get_basic_stats any = inr (StatsMessage msg) ->
           data any = None))
  /\ exists df self',
       load_data read_csv read_excel strptime to_numeric_text file_path self
       = (inr (Some (Ledger df)), self')
       /\ data self' = Some (Ledger df)
       /\ rows df = []
       /\ get_monthly_summary self' = (inr (Table []), self')
       /\ get_category_summary self' = (inr (Table []), self')
       /\ get_basic_stats self'
          = (inr (StatsDict
                    {| Total_Income := 0;
                       Total_Expenses := 0;
                       Balance := 0;
                       Average_Expense := 0;
                       Average_Income := 0;
                       Top_Expense_Category := "N/A";
                       Top_Income_Category := "N/A";
                       Total_Transactions := 0 |}),
             self').
Proof.
  intros Hfrom Hrows. split.
  - intros [[[t'|df]|]]; unfold result, get_monthly_summary,
      get_category_summary, get_basic_stats, bind, get_data, ret, raise, call;
      cbn [data fst snd].
    + repeat split; intros; discriminate.
    + repeat split; try (intros; discriminate).
      intros msg. destruct (basic_stats df); discriminate.
    + auto.
  - destruct (load_data_empty read_csv read_excel strptime to_numeric_text
                file_path t self Hfrom Hrows) as (df & Hload & Hdf).
    exists df, {| data := Some (Ledger df) |}.
    split; [exact Hload|]. split; [reflexivity|]. split; [exact Hdf|].
    destruct df as [hd hc l]. simpl in Hdf. subst l.
    repeat split; reflexivity.
Qed.

Lemma empty_ledger_is_not_no_data_witness :
  exists df self',
    load_data read_empty read_empty strptime_dmy (fun _ => None)
              "movimenti.xlsx" __init__
    = (inr (Some (Ledger df)), self')
    /\ rows df = []
    /\ get_monthly_summary self' = (inr (Table []), self')
    /\ result get_basic_stats self' <> inr (StatsMessage NO_DATA).
Proof.
  destruct (empty_ledger_is_not_no_data read_empty read_empty strptime_dmy
              (fun _ => None) "movimenti.xlsx" empty_statement __init__)
    as (Honly & df & self' & Hload & Hdata & Hrows & Hm & _ & Hs).
  - right. repeat split; vm_compute; reflexivity.
  - reflexivity.
  - exists df, self'. split; [exact Hload|]. split; [exact Hrows|].
    split; [exact Hm|].
    unfold result. rewrite Hs. discriminate.
Defined.

(** ** Before any table is held (C3) *)

(** A load that stops before a table is assigned leaves the tracker as it
    was: unsupported extension, or a reader that raises. *)
Lemma load_data_unsupported rc re sp tnt (file_path : string)
    (self : FinanceTracker) :
  endswith file_path ".csv" = false ->
  endswith file_path ".xlsx" || endswith file_path ".xls" = false ->
  load_data rc re sp tnt file_path self
  = (inl (ValueError "Unsupported file format. Please use CSV or Excel."), self).
Proof.
  intros Hcsv Hx. unfold load_data. rewrite Hcsv, Hx. reflexivity.
Qed.

Lemma load_data_unreadable rc re sp tnt (file_path : string)
    (self : FinanceTracker) (e : exn) :
  (endswith file_path ".csv" = true /\ rc file_path = inl e)
  \/ (endswith file_path ".csv" = false
      /\ endswith file_path ".xlsx" || endswith file_path ".xls" = true
      /\ re file_path = inl e) ->
  load_data rc re sp tnt file_path self = (inl e, self).
Proof.
  unfold load_data.
  intros [[Hcsv Hread]|(Hcsv & Hx & Hread)]; rewrite Hcsv; [|rewrite Hx];
    unfold bind at 1 2 3; unfold call; rewrite Hread; reflexivity.
Qed.

(** C3 (as the program has it).  A tracker whose [data] is [None], as a new
    tracker is, answers each of the four methods with the message, raises
    nothing and stays as it is. *)
Theorem no_data_before_any_table
    (open_workbook : string -> option exn)
    (write_report : string -> Report -> option exn)
    (output_path : string) (self : FinanceTracker) :
  data self = None ->
  data __init__ = None
  /\ get_monthly_summary self = (inr (Message NO_DATA), self)
  /\ get_category_summary self = (inr (Message NO_DATA), self)
  /\ get_basic_stats self = (inr (StatsMessage NO_DATA), self)
  /\ export_report_with_charts open_workbook write_report output_path self
     = (inr NO_DATA, self)
  /\ NO_DATA = "No data loaded. Please load data first.".
Proof.
  destruct self as [d]. simpl. intros ->. repeat split; reflexivity.
Qed.

Lemma no_data_before_any_table_witness :
  get_monthly_summary __init__ = (inr (Message NO_DATA), __init__)
  /\ get_category_summary __init__ = (inr (Message NO_DATA), __init__)
  /\ get_basic_stats __init__ = (inr (StatsMessage NO_DATA), __init__)
  /\ export_report_with_charts open_nothing write_nothing
       "my_financial_report.xlsx" __init__
     = (inr NO_DATA, __init__).
Proof.
  destruct (no_data_before_any_table open_nothing write_nothing
              "my_financial_report.xlsx" __init__ eq_refl)
    as (_ & Hm & Hc & Hs & He & _).
  repeat split; assumption.
Defined.

(** C3 as stated fails after a load that raised while converting the dates:
    no load has succeeded, yet the tracker holds the table as read (line 15
    ran, line 18 raised) and each of the four methods raises [KeyError]. *)
Lemma half_loaded_counterexample :
  result (load_data read_iso_dated read_iso_dated strptime_dmy (fun _ => None)
                    "movimenti.csv") __init__
  = inl (ValueError "time data does not match format '%d/%m/%Y'")
  /\ data half_loaded_tracker = Some (Unprocessed iso_dated_statement)
  /\ result get_monthly_summary half_loaded_tracker = inl (KeyError "MonthYear")
  /\ result get_category_summary half_loaded_tracker = inl (KeyError "Amount")
  /\ result get_basic_stats half_loaded_tracker = inl (KeyError "Amount")
  /\ result (export_report_with_charts open_nothing write_nothing
              "my_financial_report.xlsx")
            half_loaded_tracker
     = inl (KeyError "MonthYear").
Proof. repeat split; vm_compute; reflexivity. Qed.

(** ** The sample of the script (C4) *)

(** C4.  Loading the sample succeeds; its ledger holds the three expenses
    -100.00, -30.00 and -11.50 in their categories.  The statistics then
    give total income 0, total expenses -141.50, balance -141.50 and 3
    transactions, and the monthly summary is the single entry "2025-03"
    with amount -141.50 and count 3. *)
Theorem sample_ledger_statistics (to_numeric_text : string -> option Q) :
  let self := sample_tracker to_numeric_text in
  exists df s e,
    load_data read_sample read_sample strptime_dmy to_numeric_text
              "sample_data.csv" __init__
    = (inr (Some (Ledger df)), self)
    /\ data self = Some (Ledger df)
    /\ map (fun r => (Amount r, Categoria r, option_map month (Data_contabile r),
                      option_map year (Data_contabile r), Avere r)) (rows df)
       = [ (-100.00, Some "Ristoranti e bar", Some 3%nat, Some 2025%nat, None);
           (-30.00, Some "Arte e Cultura", Some 3%nat, Some 2025%nat, None);
           (-11.50, Some "Utenze", Some 3%nat, Some 2025%nat, None) ]
    /\ get_basic_stats self = (inr (StatsDict s), self)
    /\ Total_Income s == 0
    /\ Total_Expenses s == -141.50
    /\ Balance s == -141.50
    /\ Total_Transactions s = 3%nat
    /\ get_monthly_summary self = (inr (Table [e]), self)
    /\ label e = "2025-03"
    /\ total e == -141.50
    /\ Transactions e = 3%nat.
Proof.
  intros self. unfold self.
  eexists. eexists. eexists.
  split; [vm_compute; reflexivity|].
  split; [vm_compute; reflexivity|].
  split; [vm_compute; reflexivity|].
  split; [vm_compute; reflexivity|].
  split; [vm_compute; reflexivity|].
  split; [vm_compute; reflexivity|].
  split; [vm_compute; reflexivity|].
  split; [vm_compute; reflexivity|].
  split; [vm_compute; reflexivity|].
  split; [vm_compute; reflexivity|].
  split; vm_compute; reflexivity.
Qed.

(** * Further properties of the program *)

(** ** Loading *)

Lemma convert_dates_flags sp (t : RawFrame) (self : FinanceTracker) (t' : RawFrame) :
  convert_dates sp t self = (inr tt, {| data := Some (Unprocessed t') |}) ->
  raw_has_Divisa t' = raw_has_Divisa t
  /\ raw_has_Causale t' = raw_has_Causale t
  /\ Forall2 (fun a b => raw_Divisa b = raw_Divisa a
                         /\ raw_Causale b = raw_Causale a)
             (raw_rows t) (raw_rows t').
Proof.
  unfold convert_dates, bind, call, set_data.
  destruct (convert_Data_contabile sp t) as [e|t1] eqn:H1; [discriminate|].
  destruct (convert_Valuta sp t1) as [e|t2] eqn:H2; [discriminate|].
  intros [= <-].
  pose proof (convert_Data_contabile_rows sp t t1 H1) as R1.
  pose proof (convert_Valuta_rows sp t1 t2 H2) as R2.
  unfold convert_Data_contabile in H1. unfold convert_Valuta in H2.
  destruct (map_or_raise _ (raw_rows t)); [discriminate|]. injection H1 as <-.
  destruct (map_or_raise _ (raw_rows (with_rows t l))); [discriminate|].
  injection H2 as <-. simpl. split; [reflexivity|]. split; [reflexivity|].
  simpl in R1, R2.
  pose proof (Forall2_compose _ _ _ _ _ R1 R2) as H.
  eapply Forall2_impl; [|exact H]. simpl.
  intros a c (b & (_ & Hb) & (v & ->)). rewrite Hb. simpl. auto.
Qed.

(** A load that returns: the table read, the table after the date
    conversion and the ledger, with everything that relates them. *)
Lemma load_data_inversion rc re sp tnt (file_path : string)
    (self self' : FinanceTracker) (v : option Frame) :
  load_data rc re sp tnt file_path self = (inr v, self') ->
  exists t t' df,
    loaded_from rc re file_path t
    /\ raw_has_Divisa t' = raw_has_Divisa t
    /\ raw_has_Causale t' = raw_has_Causale t
    /\ Forall2 (fun a b => dates_converted sp a b
                           /\ raw_Divisa b = raw_Divisa a
                           /\ raw_Causale b = raw_Causale a)
               (raw_rows t) (raw_rows t')
    /\ process tnt t' = inr df
    /\ v = Some (Ledger df)
    /\ self' = {| data := Some (Ledger df) |}.
Proof.
  unfold load_data, loaded_from.
  assert (Hfinish : forall t',
    bind (_process_data tnt) (fun _ => get_data) {| data := Some (Unprocessed t') |}
      = (inr v, self') ->
    exists df, process tnt t' = inr df /\ v = Some (Ledger df)
               /\ self' = {| data := Some (Ledger df) |}).
  { intros t' H. unfold bind in H.
    pose proof (process_data_after_read tnt t' _ eq_refl) as Hp.
    destruct (process tnt t') as [e|df]; rewrite Hp in H; [discriminate|].
    unfold get_data in H. simpl in H. injection H as <- <-. eauto. }
  assert (Hconv : forall t s,
    bind (convert_dates sp t) (fun _ => bind (_process_data tnt) (fun _ => get_data)) s
      = (inr v, self') ->
    exists t' df,
      raw_has_Divisa t' = raw_has_Divisa t
      /\ raw_has_Causale t' = raw_has_Causale t
      /\ Forall2 (fun a b => dates_converted sp a b
                             /\ raw_Divisa b = raw_Divisa a
                             /\ raw_Causale b = raw_Causale a)
                 (raw_rows t) (raw_rows t')
      /\ process tnt t' = inr df /\ v = Some (Ledger df)
      /\ self' = {| data := Some (Ledger df) |}).
  { intros t s. unfold bind at 1.
    destruct (convert_dates_outcome sp t s)
      as [(e & s' & He & _)|(t' & Ht' & Hrows & _)].
    - rewrite He. discriminate.
    - rewrite Ht'. intros H.
      destruct (Hfinish t' H) as (df & Hdf & Hv & Hs).
      destruct (convert_dates_flags sp t s t' Ht') as (Hd & Hc & Hcells).
      exists t', df. repeat (split; [assumption|]).
      split; [|auto].
      clear - Hrows Hcells. revert Hcells.
      induction Hrows; intros Hcells; inversion Hcells; subst;
        constructor; auto. }
  destruct (endswith file_path ".csv") eqn:Hcsv.
  - unfold bind at 1 2 3. unfold call, set_data.
    destruct (rc file_path) as [e|t] eqn:Hr; [discriminate|].
    intros H. destruct (Hconv t _ H) as (t' & df & H').
    exists t, t', df. split; [auto|exact H'].
  - destruct (endswith file_path ".xlsx" || endswith file_path ".xls") eqn:Hx.
    + unfold bind at 1 2 3. unfold call, set_data.
      destruct (re file_path) as [e|t] eqn:Hr; [discriminate|].
      destruct (is_datetime64_any_dtype (map raw_Data_contabile (raw_rows t))); simpl.
      * intros H. destruct (Hfinish t H) as (df & Hdf & Hv & Hs).
        exists t, t, df. split; [auto|].
        split; [reflexivity|]. split; [reflexivity|]. split; [|auto].
        apply Forall2_refl. unfold dates_converted. auto 10.
      * intros H. destruct (Hconv t _ H) as (t' & df & H').
        exists t, t', df. split; [auto|exact H'].
    + unfold bind, raise. discriminate.
Qed.

(** X1.  When [load_data] raises there are two cases.  Either it stopped
    before a table was assigned, on an unsupported extension (a
    [ValueError]) or on an error of the reader (propagated as it is), and
    the tracker is what it was.  Or the date conversion raised its
    [ValueError], and the tracker holds the table as read, on which the
    three queries raise [KeyError]. *)
Theorem failed_load_outcome
    (read_csv read_excel : string -> exn + RawFrame)
    (strptime : string -> option Timestamp)
    (to_numeric_text : string -> option Q)
    (file_path : string) (self self' : FinanceTracker) (e : exn) :
  load_data read_csv read_excel strptime to_numeric_text file_path self = (inl e, self') ->
  (self' = self
   /\ ((endswith file_path ".csv" = false
        /\ endswith file_path ".xlsx" || endswith file_path ".xls" = false
        /\ e = ValueError "Unsupported file format. Please use CSV or Excel.")
       \/ (endswith file_path ".csv" = true /\ read_csv file_path = inl e)
       \/ (endswith file_path ".csv" = false
           /\ endswith file_path ".xlsx" || endswith file_path ".xls" = true
           /\ read_excel file_path = inl e)))
  \/ (e = ValueError "time data does not match format '%d/%m/%Y'"
      /\ (exists t, loaded_from read_csv read_excel file_path t)
      /\ (exists t', data self' = Some (Unprocessed t'))
      /\ result get_monthly_summary self' = inl (KeyError "MonthYear")
      /\ result get_category_summary self' = inl (KeyError "Amount")
      /\ result get_basic_stats self' = inl (KeyError "Amount")).
Proof.
  unfold load_data.
  assert (Hfinish : forall t',
    (exists df, process to_numeric_text t' = inr df) ->
    bind (_process_data to_numeric_text) (fun _ => get_data)
         {| data := Some (Unprocessed t') |}
      = (inl e, self') -> False).
  { intros t' (df & Hdf) H. unfold bind in H.
    pose proof (process_data_after_read to_numeric_text t' _ eq_refl) as Hp.
    rewrite Hdf in Hp. rewrite Hp in H. discriminate. }
  assert (Hconv : forall t,
    bind (convert_dates strptime t)
         (fun _ => bind (_process_data to_numeric_text) (fun _ => get_data))
         {| data := Some (Unprocessed t) |}
      = (inl e, self') ->
    e = ValueError "time data does not match format '%d/%m/%Y'"
    /\ (exists t', data self' = Some (Unprocessed t'))
    /\ result get_monthly_summary self' = inl (KeyError "MonthYear")
    /\ result get_category_summary self' = inl (KeyError "Amount")
    /\ result get_basic_stats self' = inl (KeyError "Amount")).
  { intros t. unfold bind at 1.
    destruct (convert_dates strptime t {| data := Some (Unprocessed t) |})
      as [[e'|[]] s] eqn:Hc.
    - intros [= <- <-]. apply convert_dates_raises in Hc.
      destruct Hc as [He Hs]. split; [exact He|].
      destruct Hs as [->|(t' & ->)];
        (split; [eexists; reflexivity|repeat split; reflexivity]).
    - intros H. exfalso.
      destruct (convert_dates_outcome strptime t {| data := Some (Unprocessed t) |})
        as [(e' & s' & He & _)|(t' & Ht' & _ & Hlike)];
        rewrite Hc in *; [discriminate|].
      injection Ht' as ->.
      exact (Hfinish t' (process_total to_numeric_text t' Hlike) H). }
  destruct (endswith file_path ".csv") eqn:Hcsv.
  - unfold bind at 1 2 3. unfold call, set_data.
    destruct (read_csv file_path) as [e'|t] eqn:Hr.
    + intros [= <- <-]. left. auto.
    + intros H. right. destruct (Hconv t H) as (He & Hd & Hq).
      split; [exact He|]. split; [|auto].
      exists t. unfold loaded_from. rewrite Hcsv. auto.
  - destruct (endswith file_path ".xlsx" || endswith file_path ".xls") eqn:Hx.
    + unfold bind at 1 2 3. unfold call, set_data.
      destruct (read_excel file_path) as [e'|t] eqn:Hr.
      * intros [= <- <-]. left. auto 10.
      * destruct (is_datetime64_any_dtype (map raw_Data_contabile (raw_rows t)))
          eqn:Htyped; cbn [negb].
        -- intros H. exfalso.
           exact (Hfinish t (process_typed_column to_numeric_text t Htyped) H).
        -- intros H. right. destruct (Hconv t H) as (He & Hd & Hq).
           split; [exact He|]. split; [|auto].
           exists t. unfold loaded_from. rewrite Hcsv, Hx. auto 10.
    + unfold bind, raise. intros [= <- <-]. left. auto.
Qed.

Lemma failed_load_outcome_witness :
  exists e,
    load_data read_iso_dated read_iso_dated strptime_dmy (fun _ => None)
              "movimenti.csv" __init__
    = (inl e, half_loaded_tracker)
    /\ e = ValueError "time data does not match format '%d/%m/%Y'"
    /\ result get_monthly_summary half_loaded_tracker = inl (KeyError "MonthYear").
Proof.
  eexists. split; [vm_compute; reflexivity|].
  destruct (failed_load_outcome read_iso_dated read_iso_dated strptime_dmy
              (fun _ => None) "movimenti.csv" __init__ half_loaded_tracker
              (ValueError "time data does not match format '%d/%m/%Y'"))
    as [[Hs _]|(He & _ & _ & Hm & _)].
  - vm_compute. reflexivity.
  - vm_compute in Hs. discriminate Hs.
  - split; [exact He|exact Hm].
Defined.

(** [load_data] by cases: what follows the reading does not mention the
    tracker the call started from. *)
Lemma load_data_cases rc re sp tnt (file_path : string) (self : FinanceTracker) :
  load_data rc re sp tnt file_path self
  = if endswith file_path ".csv" then
      match rc file_path with
      | inl e => (inl e, self)
      | inr t =>
          bind (convert_dates sp t)
               (fun _ => bind (_process_data tnt) (fun _ => get_data))
               {| data := Some (Unprocessed t) |}
      end
    else if endswith file_path ".xlsx" || endswith file_path ".xls" then
      match re file_path with
      | inl e => (inl e, self)
      | inr t =>
          if negb (is_datetime64_any_dtype (map raw_Data_contabile (raw_rows t)))
          then bind (convert_dates sp t)
                    (fun _ => bind (_process_data tnt) (fun _ => get_data))
                    {| data := Some (Unprocessed t) |}
          else bind (_process_data tnt) (fun _ => get_data)
                    {| data := Some (Unprocessed t) |}
      end
    else (inl (ValueError "Unsupported file format. Please use CSV or Excel."), self).
Proof.
  unfold load_data.
  destruct (endswith file_path ".csv").
  - unfold bind at 1 2 3. unfold call, set_data.
    destruct (rc file_path); reflexivity.
  - destruct (endswith file_path ".xlsx" || endswith file_path ".xls").
    + unfold bind at 1 2 3. unfold call, set_data.
      destruct (re file_path); [reflexivity|].
      destruct (negb _); reflexivity.
    + reflexivity.
Qed.

(** X2.  What a load returns or raises does not depend on what the tracker
    held before, and neither does the tracker it leaves, except when it
    stops before a table is assigned: then each tracker is left as it
    was.  In particular a load that returns replaces whatever was held. *)
Theorem load_ignores_previous_state
    (read_csv read_excel : string -> exn + RawFrame)
    (strptime : string -> option Timestamp)
    (to_numeric_text : string -> option Q)
    (file_path : string) (self1 self2 : FinanceTracker) :
  let load := load_data read_csv read_excel strptime to_numeric_text file_path in
  result load self1 = result load self2
  /\ (after load self1 = after load self2
      \/ (after load self1 = self1 /\ after load self2 = self2
          /\ exists e, result load self1 = inl e))
  /\ (forall v, result load self1 = inr v -> load self1 = load self2).
Proof.
  intros load. unfold load, result, after.
  rewrite !load_data_cases.
  destruct (endswith file_path ".csv").
  - destruct (read_csv file_path) as [e|t]; cbn [fst snd].
    + split; [reflexivity|]. split; [right; eauto|].
      intros v Hv. discriminate Hv.
    + split; [reflexivity|]. split; [now left|]. reflexivity.
  - destruct (endswith file_path ".xlsx" || endswith file_path ".xls").
    + destruct (read_excel file_path) as [e|t]; cbn [fst snd].
      * split; [reflexivity|]. split; [right; eauto|].
        intros v Hv. discriminate Hv.
      * split; [reflexivity|]. split; [now left|]. reflexivity.
    + cbn [fst snd]. split; [reflexivity|]. split; [right; eauto|].
      intros v Hv. discriminate Hv.
Qed.

Lemma posting_date_of_conversion sp (a b : RawRow) (d : option Timestamp) :
  dates_converted sp a b ->
  dt (raw_Data_contabile b) = inr d ->
  d = posting_date sp (raw_Data_contabile a).
Proof.
  intros ([Hsame|Hconv] & _) Hd.
  - rewrite Hsame in Hd. destruct (raw_Data_contabile a); simpl in *;
      congruence.
  - destruct (raw_Data_contabile a) as [|s|d0]; simpl in Hconv.
    + injection Hconv as Hb. rewrite <- Hb in Hd. simpl in *. congruence.
    + destruct (sp s) as [d0|] eqn:Hs; [|discriminate].
      injection Hconv as Hb. rewrite <- Hb in Hd. simpl in *. congruence.
    + injection Hconv as Hb. rewrite <- Hb in Hd. simpl in *. congruence.
Qed.

(** X3.  The ledger of a load that returns has one row per row of the table
    read, in the same order; category, description and tag are the cells
    of the source row, the posting date is the source cell read as a date
    (none for an empty cell), and ['Month'], ['Year'] are those of the
    posting date.  When [get_basic_stats] returns, its transaction count
    is the number of rows of the table read. *)
Theorem loaded_rows_follow_the_table
    (read_csv read_excel : string -> exn + RawFrame)
    (strptime : string -> option Timestamp)
    (to_numeric_text : string -> option Q)
    (file_path : string) (self self' : FinanceTracker) (v : option Frame) :
  load_data read_csv read_excel strptime to_numeric_text file_path self = (inr v, self') ->
  exists t df,
    loaded_from read_csv read_excel file_path t
    /\ data self' = Some (Ledger df)
    /\ List.length (rows df) = List.length (raw_rows t)
    /\ Forall2
         (fun raw r =>
            Categoria r = raw_Categoria raw
            /\ Descrizione r = raw_Descrizione raw
            /\ Tag r = raw_Tag raw
            /\ Data_contabile r = posting_date strptime (raw_Data_contabile raw)
            /\ Month r = option_map month (Data_contabile r)
            /\ Year r = option_map year (Data_contabile r))
         (raw_rows t) (rows df)
    /\ forall s, result get_basic_stats self' = inr (StatsDict s) ->
         Total_Transactions s = List.length (raw_rows t).
Proof.
  intros H. apply load_data_success in H.
  destruct H as (t & t' & df & Hfrom & Hconv & Hproc & -> & ->).
  exists t, df. split; [exact Hfrom|]. split; [reflexivity|].
  pose proof (process_rows _ _ _ Hproc) as Hrows.
  pose proof (Forall2_compose _ _ _ _ _ Hconv Hrows) as H.
  assert (Hlen : List.length (rows df) = List.length (raw_rows t))
    by (symmetry; eapply Forall2_length; exact H).
  split; [exact Hlen|]. split.
  - eapply Forall2_impl; [|exact H]. simpl.
    intros raw r (b & Hb & Hn).
    pose proof Hb as (_ & _ & _ & HC & HD & HT).
    destruct Hn as (_ & _ & _ & Hdt & Hm & Hy & _ & Hc & Hdesc & Htag).
    rewrite Hc, Hdesc, Htag, HC, HD, HT.
    repeat split; auto.
    eapply posting_date_of_conversion; eassumption.
  - intros s. unfold result, get_basic_stats, bind, get_data, call, ret.
    cbn [data fst]. unfold basic_stats.
    destruct (top_expense_cat df); [discriminate|].
    destruct (top_income_cat df); [discriminate|].
    cbn [fst]. intros [= <-]. cbn [Total_Transactions]. exact Hlen.
Qed.

Lemma loaded_rows_follow_the_table_witness :
  exists df,
    data (sample_tracker (fun _ => None)) = Some (Ledger df)
    /\ List.length (rows df) = 3%nat
    /\ map Categoria (rows df)
       = [Some "Ristoranti e bar"; Some "Arte e Cultura"; Some "Utenze"].
Proof.
  destruct (loaded_rows_follow_the_table read_sample read_sample strptime_dmy
              (fun _ => None) "sample_data.csv" __init__
              (sample_tracker (fun _ => None))
              (data (sample_tracker (fun _ => None))))
    as (t & df & Hfrom & Hd & Hlen & Hrows & _).
  - vm_compute. reflexivity.
  - exists df. split; [exact Hd|].
    assert (Ht : t = sample_data).
    { destruct Hfrom as [[_ Hr]|(_ & _ & Hr)]; unfold read_sample in Hr;
        congruence. }
    subst t. split; [exact Hlen|].
    vm_compute in Hd. injection Hd as <-. reflexivity.
Defined.

(** X4.  Lines 50-51 drop ['Divisa'] and ['Causale'] only together.  After
    a load that returns, the ledger never has both columns: they are both
    gone when the table read had both, and otherwise the ledger has the
    column the table had, with its cells. *)
Theorem optional_columns_dropped_together
    (read_csv read_excel : string -> exn + RawFrame)
    (strptime : string -> option Timestamp)
    (to_numeric_text : string -> option Q)
    (file_path : string) (self self' : FinanceTracker) (v : option Frame) :
  load_data read_csv read_excel strptime to_numeric_text file_path self = (inr v, self') ->
  exists t df,
    loaded_from read_csv read_excel file_path t
    /\ data self' = Some (Ledger df)
    /\ has_Divisa df && has_Causale df = false
    /\ (raw_has_Divisa t && raw_has_Causale t = true ->
          has_Divisa df = false /\ has_Causale df = false
          /\ Forall (fun r => Divisa r = None /\ Causale r = None) (rows df))
    /\ (raw_has_Divisa t && raw_has_Causale t = false ->
          has_Divisa df = raw_has_Divisa t
          /\ has_Causale df = raw_has_Causale t
          /\ Forall2 (fun raw r => Divisa r = raw_Divisa raw
                                   /\ Causale r = raw_Causale raw)
                     (raw_rows t) (rows df)).
Proof.
  intros H. apply load_data_inversion in H.
  destruct H as (t & t' & df & Hfrom & Hd & Hc & Hconv & Hproc & -> & ->).
  exists t, df. split; [exact Hfrom|]. split; [reflexivity|].
  unfold process in Hproc.
  destruct (map_or_raise _ (raw_rows t')) as [e|l] eqn:Hl; [discriminate|].
  apply map_or_raise_Forall2 in Hl.
  injection Hproc as <-. unfold drop_Divisa_Causale. cbn [has_Divisa has_Causale rows].
  rewrite Hd, Hc.
  destruct (raw_has_Divisa t && raw_has_Causale t) eqn:Hboth;
    cbn [has_Divisa has_Causale rows].
  - split; [reflexivity|]. split; [|discriminate].
    intros _. split; [reflexivity|]. split; [reflexivity|].
    apply Forall_forall. intros r Hr. apply in_map_iff in Hr.
    destruct Hr as (r0 & <- & _). simpl. auto.
  - split; [exact Hboth|]. split; [discriminate|].
    intros _. split; [reflexivity|]. split; [reflexivity|].
    pose proof (Forall2_compose _ _ _ _ _ Hconv Hl) as H.
    eapply Forall2_impl; [|exact H]. simpl.
    intros raw r (b & (_ & HDiv & HCau) & Hr).
    unfold process_row in Hr.
    destruct (dt (raw_Data_contabile b)); [discriminate|].
    injection Hr as <-. simpl. auto.
Qed.

Lemma optional_columns_dropped_together_witness :
  exists df,
    data (sample_tracker (fun _ => None)) = Some (Ledger df)
    /\ has_Divisa df = false /\ has_Causale df = false
    /\ Forall (fun r => Divisa r = None /\ Causale r = None) (rows df).
Proof.
  destruct (optional_columns_dropped_together read_sample read_sample strptime_dmy
              (fun _ => None) "sample_data.csv" __init__
              (sample_tracker (fun _ => None))
              (data (sample_tracker (fun _ => None))))
    as (t & df & Hfrom & Hd & _ & Hboth & _).
  - vm_compute. reflexivity.
  - exists df. split; [exact Hd|]. apply Hboth.
    assert (Ht : t = sample_data).
    { destruct Hfrom as [[_ Hr]|(_ & _ & Hr)]; unfold read_sample in Hr;
        congruence. }
    subst t. reflexivity.
Defined.

Lemma process_never_both_columns tnt (t : RawFrame) (df : DataFrame) :
  process tnt t = inr df -> has_Divisa df && has_Causale df = false.
Proof.
  unfold process. destruct (map_or_raise _ (raw_rows t)); [discriminate|].
  intros [= <-]. unfold drop_Divisa_Causale. cbn [has_Divisa has_Causale].
  destruct (raw_has_Divisa t && raw_has_Causale t) eqn:H; [reflexivity|exact H].
Qed.

Lemma reprocess_row_derived (r : Row) : derived_columns r -> reprocess_row r = r.
Proof.
  destruct r. unfold derived_columns, reprocess_row. simpl.
  intros (-> & -> & -> & ->). reflexivity.
Qed.

(** X5.  [_process_data] is idempotent on what it produced: run again on the
    tracker a load left, it returns and leaves the same ledger. *)
Theorem process_data_idempotent
    (read_csv read_excel : string -> exn + RawFrame)
    (strptime : string -> option Timestamp)
    (to_numeric_text : string -> option Q)
    (file_path : string) (self self' : FinanceTracker) (v : option Frame) :
  load_data read_csv read_excel strptime to_numeric_text file_path self = (inr v, self') ->
  _process_data to_numeric_text self' = (inr tt, self').
Proof.
  intros H. apply load_data_success in H.
  destruct H as (t & t' & df & _ & _ & Hproc & _ & ->).
  unfold _process_data, bind, get_data, set_data. cbn [data].
  do 3 f_equal. unfold reprocess.
  pose proof (process_never_both_columns _ _ _ Hproc) as Hcols.
  pose proof (process_derived_columns _ _ _ Hproc) as Hinv.
  assert (Hrows : map reprocess_row (rows df) = rows df).
  { induction Hinv as [|r l Hr _ IH]; simpl; [reflexivity|].
    now rewrite IH, reprocess_row_derived. }
  rewrite Hrows. unfold drop_Divisa_Causale. cbn [has_Divisa has_Causale].
  rewrite Hcols. destruct df; reflexivity.
Qed.

Lemma process_data_idempotent_witness :
  _process_data (fun _ => None) (sample_tracker (fun _ => None))
  = (inr tt, sample_tracker (fun _ => None)).
Proof.
  apply (process_data_idempotent read_sample read_sample strptime_dmy
           (fun _ => None) "sample_data.csv" __init__
           (sample_tracker (fun _ => None))
           (data (sample_tracker (fun _ => None)))).
  vm_compute. reflexivity.
Defined.

(** ** The summaries and the statistics *)







Lemma basic_stats_fields (df : DataFrame) (s : Stats) :
  result get_basic_stats {| data := Some (Ledger df) |} = inr (StatsDict s) ->
  Total_Income s = total_income df
  /\ Total_Expenses s = total_expense df
  /\ Balance s = total_income df + total_expense df
  /\ Average_Expense s = avg_expense df
  /\ Average_Income s = avg_income df
  /\ top_expense_cat df = inr (Top_Expense_Category s)
  /\ top_income_cat df = inr (Top_Income_Category s)
  /\ Total_Transactions s = List.length (rows df).
Proof.
  unfold result, get_basic_stats, bind, get_data, call, ret. cbn [data fst].
  unfold basic_stats.
  destruct (top_expense_cat df); [discriminate|].
  destruct (top_income_cat df); [discriminate|].
  cbn [fst]. intros [= <-]. cbn. auto 10.
Qed.



Lemma series_sum_nonneg (l : list Q) :
  Forall (fun q => 0 <= q) l -> 0 <= series_sum l.
Proof.
  induction 1 as [|q l Hq _ IH].
  - rewrite series_sum_nil. apply Qle_refl.
  - rewrite series_sum_cons.
    rewrite <- (Qplus_0_r 0). now apply Qplus_le_compat.
Qed.

Lemma series_sum_nonpos (l : list Q) :
  Forall (fun q => q <= 0) l -> series_sum l <= 0.
Proof.
  induction 1 as [|q l Hq _ IH].
  - rewrite series_sum_nil. apply Qle_refl.
  - rewrite series_sum_cons.
    rewrite <- (Qplus_0_r 0). now apply Qplus_le_compat.
Qed.

Lemma series_sum_pos (l : list Q) :
  Forall (fun q => 0 < q) l -> l <> [] -> 0 < series_sum l.
Proof.
  intros Hall Hne. destruct Hall as [|q l Hq Hl]; [congruence|].
  rewrite series_sum_cons. rewrite <- (Qplus_0_r 0).
  apply Qplus_lt_le_compat; [exact Hq|].
  apply series_sum_nonneg.
  eapply Forall_impl; [|exact Hl]. intros x. apply Qlt_le_weak.
Qed.

Lemma series_sum_neg (l : list Q) :
  Forall (fun q => q < 0) l -> l <> [] -> series_sum l < 0.
Proof.
  intros Hall Hne. destruct Hall as [|q l Hq Hl]; [congruence|].
  rewrite series_sum_cons. rewrite <- (Qplus_0_r 0).
  apply Qplus_lt_le_compat; [exact Hq|].
  apply series_sum_nonpos.
  eapply Forall_impl; [|exact Hl]. intros x. apply Qlt_le_weak.
Qed.









Lemma some_labelled_false (l : list Row) :
  some_labelled l = false <->
  l <> [] /\ forall r, In r l -> Categoria r = None.
Proof.
  unfold some_labelled. rewrite orb_false_iff. split.
  - intros [He Hx]. split.
    + intros ->. discriminate.
    + intros r Hr. destruct (Categoria r) eqn:Hc; [|reflexivity].
      assert (H : existsb (fun r => is_notnull (Categoria r)) l = true).
      { apply existsb_exists. exists r. rewrite Hc. auto. }
      congruence.
  - intros [Hne Hall]. split.
    + destruct l; [congruence|reflexivity].
    + apply not_true_is_false. intros H. apply existsb_exists in H.
      destruct H as (r & Hr & Hn). rewrite (Hall r Hr) in Hn. discriminate.
Qed.

(** X9.  On a loaded ledger [get_basic_stats] raises exactly when there are
    negative amounts of which none has a category, or positive amounts of
    which none has a category; what it raises then is the [ValueError] of
    [idxmax] on an empty series.  In every other case it returns its
    dictionary. *)
Theorem basic_stats_raises_exactly_when_unlabelled (df : DataFrame) :
  let self := {| data := Some (Ledger df) |} in
  let unlabelled :=
    (negative_rows df <> []
     /\ forall r, In r (negative_rows df) -> Categoria r = None)
    \/ (positive_rows df <> []
        /\ forall r, In r (positive_rows df) -> Categoria r = None) in
  (unlabelled ->
     result get_basic_stats self
     = inl (ValueError "attempt to get argmax of an empty sequence"))
  /\ (~ unlabelled -> exists s, result get_basic_stats self = inr (StatsDict s))
  /\ ((exists e, result get_basic_stats self = inl e) <-> unlabelled).
Proof.
  intros self unlabelled.
  pose proof (top_expense_cat_cases df) as He.
  pose proof (top_income_cat_cases df) as Hi.
  assert (Hnn : negative_amounts df = [] <-> negative_rows df = [])
    by (rewrite <- negative_amounts_rows; apply map_eq_nil_iff).
  assert (Hpn : positive_amounts df = [] <-> positive_rows df = [])
    by (rewrite <- positive_amounts_rows; apply map_eq_nil_iff).
  assert (Hcases :
    (unlabelled /\ result get_basic_stats self
                   = inl (ValueError "attempt to get argmax of an empty sequence"))
    \/ (~ unlabelled /\ exists s, result get_basic_stats self = inr (StatsDict s))).
  { unfold self, result, get_basic_stats, bind, get_data, call, ret.
    cbn [data fst]. unfold basic_stats.
    destruct (top_expense_cat df) as [e|ke].
    - left. destruct He as (-> & Hne & Hall). split; [|reflexivity].
      left. split; [|exact Hall]. intros H. apply Hne. now apply Hnn.
    - destruct (top_income_cat df) as [e|ki].
      + left. destruct Hi as (-> & Hne & Hall). split; [|reflexivity].
        right. split; [|exact Hall]. intros H. apply Hne. now apply Hpn.
      + right. split; [|eexists; reflexivity].
        intros [[Hne Hall]|[Hne Hall]].
        * destruct He as [[Hnil _]|(_ & (r & Hr & Hlt & Hc) & _)].
          -- apply Hne. now apply Hnn.
          -- assert (Hin : In r (negative_rows df)).
             { apply filter_In. split; [exact Hr|]. now apply Qlt_bool_iff. }
             rewrite (Hall r Hin) in Hc. discriminate.
        * destruct Hi as [[Hnil _]|(_ & (r & Hr & Hlt & Hc) & _)].
          -- apply Hne. now apply Hpn.
          -- assert (Hin : In r (positive_rows df)).
             { apply filter_In. split; [exact Hr|]. now apply Qlt_bool_iff. }
             rewrite (Hall r Hin) in Hc. discriminate. }
  destruct Hcases as [[Hu Hr]|[Hu (s & Hr)]].
  - split; [intros _; exact Hr|]. split; [intros H; contradiction|].
    split; [intros _; exact Hu|intros _; eauto].
  - split; [intros H; contradiction|]. split; [intros _; eauto|].
    split; [|intros H; contradiction].
    intros (e & He'). rewrite Hr in He'. discriminate.
Qed.

(** [idxmax] returns the first of the entries that hold the maximum: the
    entries before it are smaller, those after it are not larger. *)
Lemma idxmax_from_first (best : string * Q) (s : list (string * Q)) :
  exists l1 kv l2,
    best :: s = (l1 ++ kv :: l2)%list
    /\ fst kv = idxmax_from best s
    /\ (forall x, In x l1 -> snd x < snd kv)
    /\ (forall x, In x l2 -> snd x <= snd kv).
Proof.
  revert best. induction s as [|x s IH]; intros best.
  - exists [], best, []. simpl. repeat split; intros y [].
  - simpl. destruct (Qlt_bool (snd best) (snd x)) eqn:Hlt.
    + destruct (IH x) as (l1 & kv & l2 & Heq & Hk & Hbefore & Hafter).
      exists (best :: l1), kv, l2. simpl. rewrite Heq.
      split; [reflexivity|]. split; [exact Hk|]. split; [|exact Hafter].
      intros y [<-|Hy]; [|now apply Hbefore].
      apply Qlt_bool_iff in Hlt.
      destruct l1 as [|x' l1]; simpl in Heq; injection Heq as Hx _.
      * now subst kv.
      * subst x'. eapply Qlt_trans; [exact Hlt|]. apply Hbefore. now left.
    + apply Qlt_bool_false_iff in Hlt.
      destruct (IH best) as (l1 & kv & l2 & Heq & Hk & Hbefore & Hafter).
      destruct l1 as [|b l1]; simpl in Heq; injection Heq as Hb Hs.
      * subst kv s. exists [], best, (x :: l2). simpl.
        split; [reflexivity|]. split; [exact Hk|].
        split; [intros y []|].
        intros y [<-|Hy]; [exact Hlt|now apply Hafter].
      * subst b s. exists (best :: x :: l1), kv, l2. simpl.
        split; [reflexivity|]. split; [exact Hk|]. split; [|exact Hafter].
        intros y [<-|[<-|Hy]].
        -- apply Hbefore. now left.
        -- eapply Qle_lt_trans; [exact Hlt|]. apply Hbefore. now left.
        -- apply Hbefore. now right.
Qed.

Lemma StronglySorted_after {A} (R : A -> A -> Prop) (l1 l2 : list A) (x : A) :
  StronglySorted R (l1 ++ x :: l2) -> Forall (R x) l2.
Proof.
  induction l1 as [|y l1 IH]; simpl; intros Hs; inversion Hs; subst; auto.
Qed.

(** Over labels in ascending order, a label whose value equals that of the
    label returned comes after it. *)
Lemma idxmax_first_label (f : string -> Q) (ks : list string) (k : string) :
  StronglySorted str_lt ks ->
  idxmax (map (fun c => (c, f c)) ks) = Some k ->
  forall c, In c ks -> f c == f k -> c = k \/ str_lt k c.
Proof.
  intros Hsorted Hmax c Hc Heq.
  destruct ks as [|k0 ks0]; [discriminate|].
  simpl in Hmax. injection Hmax as Hmax.
  destruct (idxmax_from_first (k0, f k0) (map (fun c => (c, f c)) ks0))
    as (l1 & kv & l2 & Hsplit & Hk & Hbefore & Hafter).
  rewrite Hmax in Hk.
  change ((k0, f k0) :: map (fun c => (c, f c)) ks0)
    with (map (fun c => (c, f c)) (k0 :: ks0)) in Hsplit.
  apply map_eq_app in Hsplit.
  destruct Hsplit as (k1 & k2' & Hks & Hl1 & Hl2).
  destruct k2' as [|k' k2]; [discriminate|].
  simpl in Hl2. injection Hl2 as Hkv Hl2. subst kv. simpl in Hk. subst k'.
  rewrite Hks in Hc, Hsorted.
  apply in_app_or in Hc. destruct Hc as [Hc|[Hc|Hc]].
  - exfalso. assert (Hlt : f c < f k).
    { apply (Hbefore (c, f c)). rewrite <- Hl1. apply in_map_iff. eauto. }
    rewrite Heq in Hlt. exact (Qlt_irrefl _ Hlt).
  - left. auto.
  - right. apply StronglySorted_after in Hsorted.
    rewrite Forall_forall in Hsorted. now apply Hsorted.
Qed.

(** X10.  Ties between top categories are broken by the order of the
    labels: a category whose total equals that of the top expense (income)
    category is the top category itself or comes after it in the
    ascending order of the labels. *)
Theorem top_category_first_among_ties (df : DataFrame) (s : Stats) :
  result get_basic_stats {| data := Some (Ledger df) |} = inr (StatsDict s) ->
  (forall c, expense_category df c ->
     Qabs (expense_total df c) == Qabs (expense_total df (Top_Expense_Category s)) ->
     c = Top_Expense_Category s \/ str_lt (Top_Expense_Category s) c)
  /\ (forall c, income_category df c ->
        income_total df c == income_total df (Top_Income_Category s) ->
        c = Top_Income_Category s \/ str_lt (Top_Income_Category s) c).
Proof.
  intros Hs. apply basic_stats_fields in Hs.
  destruct Hs as (_ & _ & _ & _ & _ & Hte & Hti & _).
  split.
  - intros c Hc Heq. apply expense_category_keys in Hc.
    unfold top_expense_cat in Hte.
    destruct (negative_rows df) as [|r0 l0] eqn:Hneg; [destruct Hc|].
    cbn [is_empty negb] in Hte. rewrite <- Hneg in Hte.
    unfold idxmax_or_raise in Hte. rewrite expense_series in Hte.
    destruct (idxmax _) as [k|] eqn:Hmax; [|discriminate Hte].
    injection Hte as Hk. rewrite <- Hk in *. rewrite <- Hneg in Hc.
    apply (idxmax_first_label (fun c => Qabs (expense_total df c))
             (group_keys Categoria (negative_rows df)) k);
      [apply group_keys_sorted|exact Hmax|exact Hc|exact Heq].
  - intros c Hc Heq. apply income_category_keys in Hc.
    unfold top_income_cat in Hti.
    destruct (positive_rows df) as [|r0 l0] eqn:Hpos; [destruct Hc|].
    cbn [is_empty negb] in Hti. rewrite <- Hpos in Hti.
    unfold idxmax_or_raise in Hti. rewrite income_series in Hti.
    destruct (idxmax _) as [k|] eqn:Hmax; [|discriminate Hti].
    injection Hti as Hk. rewrite <- Hk in *. rewrite <- Hpos in Hc.
    apply (idxmax_first_label (fun c => income_total df c)
             (group_keys Categoria (positive_rows df)) k);
      [apply group_keys_sorted|exact Hmax|exact Hc|exact Heq].
Qed.

Lemma top_category_first_among_ties_witness :
  exists s,
    result get_basic_stats tied_tracker = inr (StatsDict s)
    /\ Top_Expense_Category s = "Arte e Cultura"
    /\ str_lt (Top_Expense_Category s) "Utenze".
Proof.
  assert (Hs : exists s, result get_basic_stats
                           {| data := Some (Ledger (ledger_of tied_tracker)) |}
                         = inr (StatsDict s))
    by (eexists; vm_compute; reflexivity).
  destruct Hs as (s & Hs).
  destruct (top_category_first_among_ties _ s Hs) as [He _].
  exists s. split; [exact Hs|].
  assert (Htop : Top_Expense_Category s = "Arte e Cultura").
  { vm_compute in Hs. injection Hs as <-. reflexivity. }
  split; [exact Htop|].
  destruct (He "Utenze") as [Heq|Hlt].
  - exists (mkRow (Some {| year := 2025; month := 3; day := 12 |})
                  (DStamp {| year := 2025; month := 3; day := 12 |})
                  (Some (-50.00)) None None None (Some "ADDEBITO DIRETTO")
                  (Some "Utenze") None (0 + -50.00) (Some 3%nat) (Some 2025%nat)
                  (Some "2025-03")).
    split; [vm_compute; auto|]. split; [vm_compute; reflexivity|reflexivity].
  - rewrite Htop. vm_compute. reflexivity.
  - rewrite Htop in Heq. discriminate Heq.
  - exact Hlt.
Defined.

(** ** The charts *)

Lemma StronglySorted_app_l {A} (R : A -> A -> Prop) (l1 l2 : list A) :
  StronglySorted R (l1 ++ l2) -> StronglySorted R l1.
Proof.
  induction l1 as [|x l1 IH]; simpl; intros Hs; [constructor|].
  inversion Hs as [|? ? Hs' Hall]; subst. constructor; [now apply IH|].
  apply Forall_app in Hall. tauto.
Qed.

Lemma StronglySorted_app_cross {A} (R : A -> A -> Prop) (l1 l2 : list A) :
  StronglySorted R (l1 ++ l2) ->
  forall x y, In x l1 -> In y l2 -> R x y.
Proof.
  induction l1 as [|a l1 IH]; simpl; intros Hs x y Hx Hy; [destruct Hx|].
  inversion Hs as [|? ? Hs' Hall]; subst.
  destruct Hx as [<-|Hx]; [|now apply IH].
  rewrite Forall_forall in Hall. apply Hall. apply in_or_app. now right.
Qed.

Lemma sort_values_descending_sorted (s : list (string * Q)) :
  StronglySorted (fun a b => snd b <= snd a) (sort_values_descending s).
Proof.
  apply Sorted_StronglySorted.
  - intros a b c Hab Hbc. eapply Qle_trans; eassumption.
  - pose proof (sort_by_Sorted (fun a b : string * Q => Qle_bool (snd b) (snd a))
                  (fun a b => Qle_bool_total (snd b) (snd a)) s) as Hs.
    unfold sort_values_descending.
    induction Hs as [|x l Hs IH Hhd]; constructor; [exact IH|].
    destruct Hhd as [|y l' Hxy]; constructor. now apply Qle_bool_iff.
Qed.

Section CategoryChart.

Variable f : string -> Q.
Variable ks : list string.
Variables title placeholder_title placeholder : string.

Let by_cat := sort_values_descending (map (fun c => (c, f c)) ks).
Let chart_data := head (Nat.min 5 (List.length by_cat)) by_cat.

Lemma by_cat_Permutation : Permutation (map (fun c => (c, f c)) ks) by_cat.
Proof. apply sort_by_Permutation. Qed.

Lemma by_cat_entry (kv : string * Q) :
  In kv by_cat -> In (fst kv) ks /\ snd kv = f (fst kv).
Proof.
  intros H. apply (Permutation_in _ (Permutation_sym by_cat_Permutation)) in H.
  apply in_map_iff in H. destruct H as (c & <- & Hc). auto.
Qed.

Lemma by_cat_labels : Permutation ks (map fst by_cat).
Proof.
  rewrite <- by_cat_Permutation, map_map. simpl. now rewrite map_id.
Qed.

Lemma by_cat_split :
  by_cat = (chart_data ++ skipn (Nat.min 5 (List.length by_cat)) by_cat)%list.
Proof. symmetry. apply firstn_skipn. Qed.

Lemma category_chart_text :
  ks = [] ->
  category_chart by_cat title placeholder_title placeholder
  = TextChart placeholder_title placeholder.
Proof.
  intros Hnil. unfold category_chart.
  assert (H : by_cat = []).
  { apply Permutation_nil. rewrite <- by_cat_Permutation, Hnil. reflexivity. }
  now rewrite H.
Qed.

Lemma category_chart_pie :
  NoDup ks -> ks <> [] ->
  exists labels,
    category_chart by_cat title placeholder_title placeholder
    = PieChart title (map f labels) labels
    /\ List.length labels = Nat.min 5 (List.length ks)
    /\ NoDup labels
    /\ (forall c, In c labels -> In c ks)
    /\ StronglySorted (fun a b => b <= a) (map f labels)
    /\ (forall c c', In c labels -> In c' ks -> ~ In c' labels -> f c' <= f c).
Proof.
  intros Hnd Hne.
  assert (Hlen : List.length by_cat = List.length ks).
  { rewrite <- (Permutation_length by_cat_Permutation). apply length_map. }
  assert (Hin : forall kv, In kv chart_data -> In kv by_cat).
  { intros kv H. rewrite by_cat_split. apply in_or_app. now left. }
  exists (map fst chart_data).
  split; [|split; [|split; [|split; [|split]]]].
  - assert (Hempty : is_empty by_cat = false).
    { destruct by_cat as [|kv l]; [|reflexivity].
      destruct ks; [congruence|discriminate Hlen]. }
    unfold category_chart. rewrite Hempty. cbn [negb]. fold chart_data.
    f_equal. rewrite map_map. apply map_ext_in. intros kv' Hkv'.
    now apply by_cat_entry, Hin.
  - rewrite length_map. unfold chart_data, head.
    rewrite length_firstn, Hlen. lia.
  - assert (H : NoDup (map fst by_cat))
      by (eapply Permutation_NoDup; [apply by_cat_labels|exact Hnd]).
    rewrite by_cat_split, map_app in H. eapply NoDup_app_remove_r; exact H.
  - intros c Hc. apply in_map_iff in Hc. destruct Hc as (kv & <- & Hkv).
    now apply by_cat_entry, Hin.
  - pose proof (sort_values_descending_sorted (map (fun c => (c, f c)) ks)) as Hs.
    fold by_cat in Hs. rewrite by_cat_split in Hs.
    apply StronglySorted_app_l in Hs.
    assert (Hall : forall kv, In kv chart_data -> snd kv = f (fst kv))
      by (intros kv H; now apply by_cat_entry, Hin).
    clear - Hs Hall. induction Hs as [|kv l Hs IH Hhd]; simpl; constructor.
    + apply IH. intros kv' H. apply Hall. now right.
    + rewrite map_map. apply Forall_map.
      apply Forall_forall. intros kv' Hkv'.
      rewrite Forall_forall in Hhd.
      rewrite <- (Hall kv) by now left.
      rewrite <- (Hall kv') by now right. now apply Hhd.
  - intros c c' Hc Hc' Hnot.
    apply in_map_iff in Hc. destruct Hc as (kv & <- & Hkv).
    assert (Hkv' : In (c', f c') by_cat).
    { apply (Permutation_in _ by_cat_Permutation). apply in_map_iff. eauto. }
    rewrite by_cat_split in Hkv'. apply in_app_or in Hkv'.
    destruct Hkv' as [Hkv'|Hkv'].
    + exfalso. apply Hnot. apply in_map_iff. exists (c', f c'). auto.
    + pose proof (sort_values_descending_sorted (map (fun c => (c, f c)) ks)) as Hs.
      fold by_cat in Hs. rewrite by_cat_split in Hs.
      pose proof (StronglySorted_app_cross _ _ _ Hs kv (c', f c') Hkv Hkv') as H.
      simpl in H. destruct (by_cat_entry kv (Hin kv Hkv)) as [_ <-]. exact H.
Qed.

End CategoryChart.

Lemma expense_total_negative (df : DataFrame) (c : string) :
  expense_category df c -> expense_total df c < 0.
Proof.
  intros (r & Hr & Hlt & Hc). unfold expense_total.
  apply series_sum_neg.
  - apply Forall_map. apply Forall_forall. intros r' Hr'.
    apply filter_In in Hr'. destruct Hr' as [_ Hp].
    apply andb_true_iff in Hp. now apply Qlt_bool_iff.
  - intros Hnil. apply map_eq_nil_iff in Hnil.
    assert (Hin : In r (filter (fun r => Qlt_bool (Amount r) 0
                                         && has_key Categoria c r) (rows df))).
    { apply filter_In. split; [exact Hr|]. apply andb_true_iff.
      split; [now apply Qlt_bool_iff|now apply has_key_true]. }
    rewrite Hnil in Hin. destruct Hin.
Qed.

Lemma income_total_positive (df : DataFrame) (c : string) :
  income_category df c -> 0 < income_total df c.
Proof.
  intros (r & Hr & Hlt & Hc). unfold income_total.
  apply series_sum_pos.
  - apply Forall_map. apply Forall_forall. intros r' Hr'.
    apply filter_In in Hr'. destruct Hr' as [_ Hp].
    apply andb_true_iff in Hp. now apply Qlt_bool_iff.
  - intros Hnil. apply map_eq_nil_iff in Hnil.
    assert (Hin : In r (filter (fun r => Qlt_bool 0 (Amount r)
                                         && has_key Categoria c r) (rows df))).
    { apply filter_In. split; [exact Hr|]. apply andb_true_iff.
      split; [now apply Qlt_bool_iff|now apply has_key_true]. }
    rewrite Hnil in Hin. destruct Hin.
Qed.

Lemma Qabs_of_negative (x : Q) : x < 0 -> 0 < Qabs x.
Proof.
  intros H. rewrite (Qabs_neg x (Qlt_le_weak _ _ H)).
  apply (Qopp_lt_compat x 0) in H. exact H.
Qed.

(** What one of the two charts shows, for the categories [ks] with the
    slice sizes [f]. *)
Lemma category_chart_shows (f : string -> Q) (ks : list string)
    (title placeholder_title placeholder : string) :
  NoDup ks ->
  let chart := category_chart (sort_values_descending (map (fun c => (c, f c)) ks))
                              title placeholder_title placeholder in
  (ks = [] -> chart = TextChart placeholder_title placeholder)
  /\ (ks <> [] ->
        exists labels,
          chart = PieChart title (map f labels) labels
          /\ (0 < List.length labels <= 5)%nat
          /\ NoDup labels
          /\ (forall c, In c labels -> In c ks)
          /\ StronglySorted (fun a b => b <= a) (map f labels)
          /\ (forall c c', In c labels -> In c' ks -> ~ In c' labels ->
                f c' <= f c)
          /\ ((List.length labels < 5)%nat -> forall c, In c ks -> In c labels)).
Proof.
  intros Hnd chart. split; [apply category_chart_text|].
  intros Hne.
  destruct (category_chart_pie f ks title placeholder_title placeholder Hnd Hne)
    as (labels & Hchart & Hlen & Hnd' & Hsub & Hsorted & Hdom).
  exists labels. split; [exact Hchart|].
  split; [destruct ks; [congruence|cbn [List.length] in Hlen; lia]|].
  split; [exact Hnd'|]. split; [exact Hsub|]. split; [exact Hsorted|].
  split; [exact Hdom|].
  intros Hfew c Hc.
  apply (@NoDup_length_incl _ labels ks Hnd'); [lia|exact Hsub|exact Hc].
Qed.

(** X11.  On a loaded ledger [create_category_charts] returns two figures
    and leaves the tracker as it is.  The expense figure is the
    placeholder when no transaction with a negative amount has a category;
    otherwise it is a pie of at most five distinct expense categories,
    each slice the absolute value of the category's summed negative
    amounts and strictly positive, in descending order, and no category
    left out has a larger value than one shown; with fewer than five
    slices every expense category is shown.  The income figure is the same
    for the positive amounts. *)
Theorem category_charts_show_top_five (df : DataFrame) :
  let self := {| data := Some (Ledger df) |} in
  exists expenses incomes,
    create_category_charts self = (inr (Some expenses, Some incomes), self)
    /\ ((forall c, ~ expense_category df c) ->
          expenses = TextChart "Expenses" "No expense data")
    /\ (forall c0, expense_category df c0 ->
          exists labels,
            expenses = PieChart "Top Expense Categories"
                         (map (fun c => Qabs (expense_total df c)) labels) labels
            /\ (0 < List.length labels <= 5)%nat
            /\ NoDup labels
            /\ (forall c, In c labels ->
                  expense_category df c /\ 0 < Qabs (expense_total df c))
            /\ StronglySorted (fun a b => b <= a)
                 (map (fun c => Qabs (expense_total df c)) labels)
            /\ (forall c c', In c labels -> expense_category df c' ->
                  ~ In c' labels ->
                  Qabs (expense_total df c') <= Qabs (expense_total df c))
            /\ ((List.length labels < 5)%nat ->
                  forall c, expense_category df c -> In c labels))
    /\ ((forall c, ~ income_category df c) ->
          incomes = TextChart "Income" "No income data")
    /\ (forall c0, income_category df c0 ->
          exists labels,
            incomes = PieChart "Top Income Categories"
                        (map (fun c => income_total df c) labels) labels
            /\ (0 < List.length labels <= 5)%nat
            /\ NoDup labels
            /\ (forall c, In c labels ->
                  income_category df c /\ 0 < income_total df c)
            /\ StronglySorted (fun a b => b <= a)
                 (map (fun c => income_total df c) labels)
            /\ (forall c c', In c labels -> income_category df c' ->
                  ~ In c' labels -> income_total df c' <= income_total df c)
            /\ ((List.length labels < 5)%nat ->
                  forall c, income_category df c -> In c labels)).
Proof.
  intros self. eexists. eexists. split; [reflexivity|].
  unfold expense_by_cat, income_by_cat. rewrite expense_series, income_series.
  destruct (category_chart_shows (fun c => Qabs (expense_total df c))
              (group_keys Categoria (negative_rows df))
              "Top Expense Categories" "Expenses" "No expense data"
              (group_keys_NoDup _ _)) as [Het Hep].
  destruct (category_chart_shows (fun c => income_total df c)
              (group_keys Categoria (positive_rows df))
              "Top Income Categories" "Income" "No income data"
              (group_keys_NoDup _ _)) as [Hit Hip].
  split; [|split; [|split]].
  - intros Hnone. apply Het.
    destruct (group_keys Categoria (negative_rows df)) as [|c l] eqn:E;
      [reflexivity|].
    exfalso. apply (Hnone c). apply expense_category_keys. rewrite E. now left.
  - intros c0 Hc0.
    destruct Hep as (labels & Hchart & Hlen & Hnd & Hsub & Hsorted & Hdom & Hall).
    { intros Hnil. apply expense_category_keys in Hc0. rewrite Hnil in Hc0.
      destruct Hc0. }
    exists labels. split; [exact Hchart|]. split; [exact Hlen|].
    split; [exact Hnd|]. split; [|split; [exact Hsorted|split]].
    + intros c Hc. apply Hsub, expense_category_keys in Hc.
      split; [exact Hc|]. now apply Qabs_of_negative, expense_total_negative.
    + intros c c' Hc Hc' Hnot. apply Hdom; auto.
      now apply expense_category_keys.
    + intros Hfew c Hc. apply Hall; [exact Hfew|].
      now apply expense_category_keys.
  - intros Hnone. apply Hit.
    destruct (group_keys Categoria (positive_rows df)) as [|c l] eqn:E;
      [reflexivity|].
    exfalso. apply (Hnone c). apply income_category_keys. rewrite E. now left.
  - intros c0 Hc0.
    destruct Hip as (labels & Hchart & Hlen & Hnd & Hsub & Hsorted & Hdom & Hall).
    { intros Hnil. apply income_category_keys in Hc0. rewrite Hnil in Hc0.
      destruct Hc0. }
    exists labels. split; [exact Hchart|]. split; [exact Hlen|].
    split; [exact Hnd|]. split; [|split; [exact Hsorted|split]].
    + intros c Hc. apply Hsub, income_category_keys in Hc.
      split; [exact Hc|]. now apply income_total_positive.
    + intros c c' Hc Hc' Hnot. apply Hdom; auto.
      now apply income_category_keys.
    + intros Hfew c Hc. apply Hall; [exact Hfew|].
      now apply income_category_keys.
Qed.

(** ** The report *)


(** ** The order of the rows *)



















